(** * todo_app: the request-handling and persistence contract of [main.go]

    The development embeds the four [/todo] handlers of [main.go]
    ([getTodos], [createTodo], [updateTodo], [deleteTodo]) as functions over
    an explicit collection of documents and an explicit [http.ResponseWriter],
    and proves the properties of the handlers that the specification states.

    What lives outside the repository (the mongo driver, [encoding/json],
    [encoding/hex], [strings], the renderer) is modelled by its documented
    behaviour; everything the handlers cannot determine themselves (the ids
    the driver generates, the clock, whether the database call fails, what the
    JSON decoder leaves in the target struct) is an input of the handler. *)

From Stdlib Require Import NArith ZArith Ascii.
From stdpp Require Import base strings list gmap.

Local Open Scope N_scope.

(** ** Bytes and hexadecimal ([encoding/hex]) *)

(** A Go [byte], as its value. *)
Definition byte : Type := N.

Inductive error : Type :=
| ErrInvalidHex                   (* primitive.ErrInvalidHex *)
| ErrLength                       (* hex.ErrLength *)
| InvalidByteError (c : ascii)    (* hex.InvalidByteError *)
| DecodeError (msg : string)      (* an error of json.Decoder.Decode *)
| DriverError (msg : string).     (* an error returned by the mongo driver *)

Global Instance error_eq_dec : EqDecision error.
Proof. solve_decision. Defined.

(** [hex.fromHexChar]: digits and letters of both cases are accepted. *)
Definition fromHexChar (c : ascii) : option byte :=
  let n := N_of_ascii c in
  if (48 <=? n) && (n <=? 57) then Some (n - 48)
  else if (97 <=? n) && (n <=? 102) then Some (n - 97 + 10)
  else if (65 <=? n) && (n <=? 70) then Some (n - 65 + 10)
  else None.

(** [hex.Decode]: two characters make one byte; the first invalid character
    is reported, an odd length after that. *)
Fixpoint hexDecode (src : string) : error + list byte :=
  match src with
  | "" => inr []
  | String p "" =>
      match fromHexChar p with
      | None => inl (InvalidByteError p)
      | Some _ => inl ErrLength
      end
  | String p (String q rest) =>
      match fromHexChar p, fromHexChar q with
      | None, _ => inl (InvalidByteError p)
      | Some _, None => inl (InvalidByteError q)
      | Some a, Some b =>
          match hexDecode rest with
          | inl e => inl e
          | inr bs => inr (N.lor (N.shiftl a 4) b :: bs)
          end
      end
  end.

Definition hextable : string := "0123456789abcdef".

Definition hexChar (n : N) : ascii :=
  default "0"%char (String.get (N.to_nat n) hextable).

(** [hex.Encode]: each byte becomes two characters of [hextable]. *)
Fixpoint hexEncode (src : list byte) : string :=
  match src with
  | [] => ""
  | v :: rest =>
      String (hexChar (N.shiftr v 4)) (String (hexChar (N.land v 15)) (hexEncode rest))
  end.

(** ** [primitive.ObjectID] *)

(** A [[12]byte]. *)
Definition ObjectID : Type := list byte.

Definition NilObjectID : ObjectID := replicate 12 0.

Definition IsZero (id : ObjectID) : bool := bool_decide (id = NilObjectID).

Definition Hex (id : ObjectID) : string := hexEncode id.

(** [primitive.ObjectIDFromHex]: the string must have 24 characters and
    decode as hexadecimal. *)
Definition ObjectIDFromHex (s : string) : error + ObjectID :=
  if negb (String.length s =? 24)%nat then inl ErrInvalidHex
  else hexDecode s.

(** ** [strings.TrimSpace] *)

(** The code points of Unicode's White_Space property ([unicode.IsSpace]). *)
Definition White_Space : list N :=
  [ 0x09; 0x0a; 0x0b; 0x0c; 0x0d; 0x20; 0x85; 0xa0; 0x1680;
    0x2000; 0x2001; 0x2002; 0x2003; 0x2004; 0x2005; 0x2006; 0x2007; 0x2008;
    0x2009; 0x200a; 0x2028; 0x2029; 0x202f; 0x205f; 0x3000 ].

(** [utf8.EncodeRune], for the code points below 0x10000. *)
Definition EncodeRune (r : N) : list ascii :=
  if r <? 0x80 then [ascii_of_N r]
  else if r <? 0x800 then
    [ascii_of_N (N.lor 0xc0 (N.shiftr r 6));
     ascii_of_N (N.lor 0x80 (N.land r 0x3f))]
  else
    [ascii_of_N (N.lor 0xe0 (N.shiftr r 12));
     ascii_of_N (N.lor 0x80 (N.land (N.shiftr r 6) 0x3f));
     ascii_of_N (N.lor 0x80 (N.land r 0x3f))].

Definition spaceEncodings : list (list ascii) :=
  Eval vm_compute in EncodeRune <$> White_Space.

(** Whether the bytes [cs] are the encoding of one white space rune. *)
Definition isSpaceBytes (cs : list ascii) : bool := bool_decide (cs ∈ spaceEncodings).

(** Drops the white space runes a string starts with. With [rv] the string is
    read backwards, so that each encoding is met last byte first. *)
Fixpoint trimLeading (rv : bool) (s : string) : string :=
  let enc cs := isSpaceBytes (if rv then reverse cs else cs) in
  match s with
  | "" => ""
  | String c1 s1 =>
      if enc [c1] then trimLeading rv s1
      else match s1 with
           | "" => s
           | String c2 s2 =>
               if enc [c1; c2] then trimLeading rv s2
               else match s2 with
                    | "" => s
                    | String c3 s3 =>
                        if enc [c1; c2; c3] then trimLeading rv s3 else s
                    end
           end
  end.

(** [strings.TrimSpace]: all leading and trailing white space removed. *)
Definition TrimSpace (s : string) : string :=
  String.rev (trimLeading true (String.rev (trimLeading false s))).

(** ** The data model of [main.go] *)

(** A [time.Time], as an instant. *)
Definition Time : Type := Z.
Bind Scope Z_scope with Time.

Module TodoModel.
Record t : Type := mk {
  ID : ObjectID;         (* bson:"id,omitempty" *)
  Title : string;        (* bson:"title" *)
  Completed : bool;      (* bson:"completed" *)
  CreatedAt : Time       (* bson:"created_at" *)
}.
End TodoModel.

Module Todo.
Record t : Type := mk {
  ID : string;           (* json:"id" *)
  Title : string;        (* json:"title" *)
  Completed : bool;      (* json:"completed" *)
  CreatedAt : Time       (* json:"created_at" *)
}.
End Todo.

Module GetTodoResponse.
Record t : Type := mk {
  Message : string;      (* json:"message" *)
  Data : list Todo.t     (* json:"data" *)
}.
End GetTodoResponse.

Module CreateTodo.
Record t : Type := mk {
  Title : string         (* json:"title" *)
}.
End CreateTodo.

Module UpdateTodo.
Record t : Type := mk {
  Title : string;        (* json:"title" *)
  Completed : bool       (* json:"completed" *)
}.
End UpdateTodo.

(** ** The collection [todo] of the database *)

(** A document of the collection, as [TodoModel] is marshalled to BSON: the
    driver adds the key [_id] to a document that has none (and [TodoModel] has
    none: its identifier is stored under the key [id]); [omitempty] leaves
    [id] out when the identifier is the zero [ObjectID]. *)
Record Document : Type := mkDocument {
  doc__id : ObjectID;
  doc_id : option ObjectID;
  doc_title : string;
  doc_completed : bool;
  doc_created_at : Time
}.

Global Instance Document_eq_dec : EqDecision Document.
Proof. solve_decision. Defined.

Definition marshal (_id : ObjectID) (m : TodoModel.t) : Document :=
  {| doc__id := _id;
     doc_id := if IsZero (TodoModel.ID m) then None else Some (TodoModel.ID m);
     doc_title := TodoModel.Title m;
     doc_completed := TodoModel.Completed m;
     doc_created_at := TodoModel.CreatedAt m |}.

(** Decoding a document into a zero [TodoModel]: an absent key leaves the
    field at its zero value. *)
Definition unmarshal (d : Document) : TodoModel.t :=
  {| TodoModel.ID := default NilObjectID (doc_id d);
     TodoModel.Title := doc_title d;
     TodoModel.Completed := doc_completed d;
     TodoModel.CreatedAt := doc_created_at d |}.

(** The calls made on the collection are recorded next to its documents. *)
Inductive Call : Type := CallFind | CallInsertOne | CallUpdateOne | CallDeleteOne.

Record Collection : Type := mkCollection {
  documents : list Document;
  calls : list Call
}.

Definition called (k : Call) (c : Collection) : Collection :=
  {| documents := documents c; calls := calls c ++ [k] |}.

(** A call on the collection that fails: the error that the driver returns,
    and whether the server had applied the write all the same. The handlers
    pass [r.Context()] to the calls that write, and the driver reports an error
    when the context is cancelled, when the reply is lost or when the write
    concern is not met, after the server may have done the write. *)
Record Failure : Type := mkFailure {
  failure : error;
  applied : bool
}.

(** What a handler takes from its surroundings during one request. *)
Record Env : Type := mkEnv {
  NewObjectID : ObjectID;      (* primitive.NewObjectID(), as createTodo calls it *)
  Now : Time;                  (* time.Now() *)
  driverID : ObjectID;         (* the _id the driver generates in InsertOne *)
  callErr : option Failure;    (* the failure of the call on the collection *)
  cursorErr : option error     (* the error of cursor.All *)
}.

Record InsertOneResult : Type := { InsertedID : ObjectID }.
Record UpdateResult : Type := { MatchedCount : Z; ModifiedCount : Z }.
Record DeleteResult : Type := { DeletedCount : Z }.

(** The filter [bson.M{"id": objID}]. *)
Definition matchesID (objID : ObjectID) (d : Document) : bool :=
  bool_decide (doc_id d = Some objID).

(** The update [bson.M{"$set": bson.M{"title": .., "completed": ..}}]. *)
Definition setFields (title : string) (completed : bool) (d : Document) : Document :=
  {| doc__id := doc__id d;
     doc_id := doc_id d;
     doc_title := title;
     doc_completed := completed;
     doc_created_at := doc_created_at d |}.

(** The first document the filter matches is updated; it counts as modified
    when the update changed it. *)
Fixpoint updateFirst (objID : ObjectID) (title : string) (completed : bool)
    (ds : list Document) : list Document * UpdateResult :=
  match ds with
  | [] => ([], {| MatchedCount := 0; ModifiedCount := 0 |})
  | d :: rest =>
      if matchesID objID d then
        (setFields title completed d :: rest,
         {| MatchedCount := 1;
            ModifiedCount := if bool_decide (setFields title completed d = d) then 0 else 1 |})
      else
        let '(rest', r) := updateFirst objID title completed rest in
        (d :: rest', r)
  end.

(** The first document the filter matches is deleted. *)
Fixpoint deleteFirst (objID : ObjectID) (ds : list Document) : list Document * DeleteResult :=
  match ds with
  | [] => ([], {| DeletedCount := 0 |})
  | d :: rest =>
      if matchesID objID d then (rest, {| DeletedCount := 1 |})
      else
        let '(rest', r) := deleteFirst objID rest in
        (d :: rest', r)
  end.

(** [Collection.Find] with the empty filter [bson.D{}]: a cursor over every
    document, here in the order of the collection. The code asks for no sort,
    so the server promises no order: what is proved of two listings, one
    before and one after a write, is stated up to permutation. *)
Definition Find (w : Env) (c : Collection) : Collection * (error + list Document) :=
  match callErr w with
  | Some f => (called CallFind c, inl (failure f))
  | None => (called CallFind c, inr (documents c))
  end.

(** [Collection.InsertOne]: the document is added at the end of the
    collection; [InsertedID] is its [_id], here the one the driver generated.
    A call that fails may have added the document all the same. *)
Definition InsertOne (w : Env) (m : TodoModel.t) (c : Collection)
    : Collection * (error + InsertOneResult) :=
  match callErr w with
  | Some f =>
      ({| documents := if applied f then documents c ++ [marshal (driverID w) m]
                       else documents c;
          calls := calls c ++ [CallInsertOne] |},
       inl (failure f))
  | None =>
      ({| documents := documents c ++ [marshal (driverID w) m];
          calls := calls c ++ [CallInsertOne] |},
       inr {| InsertedID := driverID w |})
  end.

(** [Collection.UpdateOne] with the filter and the update of [updateTodo].
    A call that fails may have done the update all the same. *)
Definition UpdateOne (w : Env) (objID : ObjectID) (title : string) (completed : bool)
    (c : Collection) : Collection * (error + UpdateResult) :=
  match callErr w with
  | Some f =>
      ({| documents := if applied f
                       then (updateFirst objID title completed (documents c)).1
                       else documents c;
          calls := calls c ++ [CallUpdateOne] |},
       inl (failure f))
  | None =>
      let '(ds, r) := updateFirst objID title completed (documents c) in
      ({| documents := ds; calls := calls c ++ [CallUpdateOne] |}, inr r)
  end.

(** [Collection.DeleteOne] with the filter of [deleteTodo]. A call that
    fails may have deleted the document all the same. *)
Definition DeleteOne (w : Env) (objID : ObjectID) (c : Collection)
    : Collection * (error + DeleteResult) :=
  match callErr w with
  | Some f =>
      ({| documents := if applied f then (deleteFirst objID (documents c)).1
                       else documents c;
          calls := calls c ++ [CallDeleteOne] |},
       inl (failure f))
  | None =>
      let '(ds, r) := deleteFirst objID (documents c) in
      ({| documents := ds; calls := calls c ++ [CallDeleteOne] |}, inr r)
  end.

(** ** The response ([http.ResponseWriter], [renderer.Render.JSON]) *)

Definition StatusOK : nat := 200.
Definition StatusCreated : nat := 201.
Definition StatusBadRequest : nat := 400.
Definition StatusNotFound : nat := 404.
Definition StatusInternalServerError : nat := 500.

(** The values the handlers put in a response. *)
Inductive value : Type :=
| VString (s : string)
| VErrorText (e : error)        (* the string err.Error() *)
| VInt64 (n : Z)
| VObjectID (id : ObjectID)     (* marshalled as the string Hex(id) *)
| VTodos (l : list Todo.t).

Definition is_string (v : value) : bool :=
  match v with
  | VString _ | VErrorText _ => true
  | _ => false
  end.

(** What [rnd.JSON] is given to serialise: a [renderer.M], which is a
    [map[string]interface{}], or the struct [GetTodoResponse]. *)
Inductive Payload : Type :=
| M (m : gmap string value)
| Struct (r : GetTodoResponse.t).

(** The member [k] of the JSON object a payload is serialised to. *)
Definition field (k : string) (p : Payload) : option value :=
  match p with
  | M m => m !! k
  | Struct r =>
      if bool_decide (k = "message") then Some (VString (GetTodoResponse.Message r))
      else if bool_decide (k = "data") then Some (VTodos (GetTodoResponse.Data r))
      else None
  end.

(** The status line is fixed by the first [WriteHeader]; every [Write] adds
    to the body. *)
Record ResponseWriter : Type := mkResponseWriter {
  status : option nat;
  written : list Payload
}.

Definition NewResponseWriter : ResponseWriter := {| status := None; written := [] |}.

(** [rnd.JSON(rw, status, v)]: [WriteHeader(status)], then the serialised [v]. *)
Definition JSON (rw : ResponseWriter) (st : nat) (v : Payload) : ResponseWriter :=
  {| status := match status rw with Some s => Some s | None => Some st end;
     written := written rw ++ [v] |}.

(** What [json.NewDecoder(r.Body).Decode(&v)] leaves behind: the contents of
    [v], which started at its zero value, and the error returned. On a value of
    the wrong type for a field the decoder goes on with the remaining fields
    and returns the error at the end, so [target] may be partly filled when
    [err] is an error. *)
Record Decoded (A : Type) : Type := mkDecoded {
  target : A;
  err : option error
}.
Arguments mkDecoded {A} _ _.
Arguments target {A} _.
Arguments err {A} _.

(** ** The handlers *)

Definition getTodos (w : Env) (c : Collection) (rw : ResponseWriter)
    : option (Collection * ResponseWriter) :=
  match Find w c with
  | (c', inl err) =>
      Some (c', JSON rw StatusInternalServerError (M {[
        "message" := VString "Could not fetch the todo collection";
        "error" := VErrorText err ]}))
  | (c', inr cursor) =>
      match cursorErr w with
      | Some _ => None      (* checkError: log.Fatalf ends the process *)
      | None =>
          let todoListFromDB := unmarshal <$> cursor in
          let todoList :=
            (λ td, {| Todo.ID := Hex (TodoModel.ID td);
                      Todo.Title := TodoModel.Title td;
                      Todo.Completed := TodoModel.Completed td;
                      Todo.CreatedAt := TodoModel.CreatedAt td |}) <$> todoListFromDB in
          Some (c', JSON rw StatusOK (Struct {|
            GetTodoResponse.Message := "All todos retrieved";
            GetTodoResponse.Data := todoList |}))
      end
  end.

Definition createTodo (w : Env) (body : Decoded CreateTodo.t)
    (c : Collection) (rw : ResponseWriter) : Collection * ResponseWriter :=
  match err body with
  | Some _ =>
      (c, JSON rw StatusBadRequest (M {[ "message" := VString "could not decode data" ]}))
  | None =>
      let todoReq := target body in
      if bool_decide (CreateTodo.Title todoReq = "") then
        (c, JSON rw StatusBadRequest (M {[ "message" := VString "please add a title" ]}))
      else
        let todoModel :=
          {| TodoModel.ID := NewObjectID w;
             TodoModel.Title := CreateTodo.Title todoReq;
             TodoModel.Completed := false;
             TodoModel.CreatedAt := Now w |} in
        match InsertOne w todoModel c with
        | (c', inl err) =>
            (c', JSON rw StatusInternalServerError (M {[
              "message" := VString "failed to insert data into the database";
              "error" := VErrorText err ]}))
        | (c', inr result) =>
            (c', JSON rw StatusCreated (M {[
              "message" := VString "Todo created successfully";
              "ID" := VObjectID (InsertedID result) ]}))
        end
  end.

Definition updateTodo (w : Env) (idParam : string) (body : Decoded UpdateTodo.t)
    (c : Collection) (rw : ResponseWriter) : Collection * ResponseWriter :=
  let id := TrimSpace idParam in
  match ObjectIDFromHex id with
  | inl err =>
      (c, JSON rw StatusBadRequest (M {[
        "message" := VString "The id is invalid";
        "error" := VErrorText err ]}))
  | inr objID =>
      let updateTodoReq := target body in
      (* the branch of the decode error writes its response and does not return *)
      let rw :=
        match err body with
        | Some err =>
            JSON rw StatusBadRequest (M {[
              "message" := VString "could not decode the data";
              "error" := VErrorText err ]})
        | None => rw
        end in
      if bool_decide (UpdateTodo.Title updateTodoReq = "") then
        (c, JSON rw StatusBadRequest (M {[ "message" := VString "title cannot be empty" ]}))
      else
        match UpdateOne w objID (UpdateTodo.Title updateTodoReq)
                (UpdateTodo.Completed updateTodoReq) c with
        | (c', inl err) =>
            (c', JSON rw StatusInternalServerError (M {[
              "message" := VString "failed to update data in db";
              "error" := VErrorText err ]}))
        | (c', inr result) =>
            (c', JSON rw StatusOK (M {[
              "message" := VString "Updated successfully";
              "resultCount" := VInt64 (ModifiedCount result) ]}))
        end
  end.

Definition deleteTodo (w : Env) (idParam : string)
    (c : Collection) (rw : ResponseWriter) : Collection * ResponseWriter :=
  let id := idParam in
  match ObjectIDFromHex id with
  | inl err =>
      (c, JSON rw StatusBadRequest (M {[
        "message" := VString "the ID is invalid";
        "error" := VErrorText err ]}))
  | inr objID =>
      match DeleteOne w objID c with
      | (c', inl err) =>
          (c', JSON rw StatusInternalServerError (M {[
            "message" := VString "error with deleting data";
            "error" := VErrorText err ]}))
      | (c', inr result) =>
          if (DeletedCount result =? 0)%Z then
            (c', JSON rw StatusNotFound (M {[ "message" := VString "Todo not found" ]}))
          else
            (c', JSON rw StatusOK (M {[
              "message" := VString "Item deleted successfully";
              "resultCont" := VInt64 (DeletedCount result) ]}))
      end
  end.

(** The routes of [todoHandlers], each request served with a new
    [ResponseWriter]. *)
Inductive Request : Type :=
| GET                                                  (* r.Get("/", getTodos) *)
| POST (body : Decoded CreateTodo.t)                   (* r.Post("/", createTodo) *)
| PUT (id : string) (body : Decoded UpdateTodo.t)      (* r.Put("/{id}", updateTodo) *)
| DELETE (id : string).                                (* r.Delete("/{id}", deleteTodo) *)

Definition todoHandlers (w : Env) (r : Request) (c : Collection)
    : option (Collection * ResponseWriter) :=
  match r with
  | GET => getTodos w c NewResponseWriter
  | POST body => Some (createTodo w body c NewResponseWriter)
  | PUT id body => Some (updateTodo w id body c NewResponseWriter)
  | DELETE id => Some (deleteTodo w id c NewResponseWriter)
  end.

(** ** Well-formed identifiers *)

Definition isHexDigit (c : ascii) : bool :=
  bool_decide (c ∈ String.list_ascii_of_string "0123456789abcdefABCDEF").

Definition isLowerHexDigit (c : ascii) : bool :=
  bool_decide (c ∈ String.list_ascii_of_string "0123456789abcdef").

(** A string of 24 hexadecimal characters, of either case. *)
Definition isHex24 (s : string) : bool :=
  (String.length s =? 24)%nat && forallb isHexDigit (String.list_ascii_of_string s).

(** A string of 24 lowercase hexadecimal characters, the identifier encoding
    in the words of the specification. *)
Definition isLowerHex24 (s : string) : bool :=
  (String.length s =? 24)%nat && forallb isLowerHexDigit (String.list_ascii_of_string s).

(** ** The properties of the specification *)

(** Every persisted item has a non-empty title and an identifier that no
    other item has. *)
Definition store_invariant (ds : list Document) : Prop :=
  Forall (λ d, doc_title d ≠ "" ∧ is_Some (doc_id d)) ds ∧ NoDup (doc_id <$> ds).


(** The payload has a member [k] that is a string. *)
Definition has_string (k : string) (p : Payload) : bool :=
  match field k p with
  | Some v => is_string v
  | None => false
  end.

(** The path identifier of the request is one that [ObjectIDFromHex] refuses;
    [updateTodo] trims it first, [deleteTodo] takes it as it is. *)
Definition invalid_path_id (r : Request) : bool :=
  match r with
  | PUT id _ => negb (isHex24 (TrimSpace id))
  | DELETE id => negb (isHex24 id)
  | _ => false
  end.

(** The error of [ObjectIDFromHex] on the path identifier as the handler of
    the route reads it. *)
Definition path_id_error (r : Request) : option error :=
  match r with
  | PUT id _ =>
      match ObjectIDFromHex (TrimSpace id) with inl e => Some e | inr _ => None end
  | DELETE id =>
      match ObjectIDFromHex id with inl e => Some e | inr _ => None end
  | _ => None
  end.

(** Every payload written has a member [k] that is a string. *)
Definition all_have (k : string) (rw : ResponseWriter) : Prop :=
  Forall (λ p, has_string k p = true) (written rw).

(** ** Sample data *)

Definition sampleID : ObjectID := [0; 0; 0; 0; 0; 0; 0; 0; 0; 0; 0; 10].
Definition sampleDriverID : ObjectID := [0; 0; 0; 0; 0; 0; 0; 0; 0; 0; 0; 11].
Definition otherID : ObjectID := [0; 0; 0; 0; 0; 0; 0; 0; 0; 0; 0; 12].
Definition otherDriverID : ObjectID := [0; 0; 0; 0; 0; 0; 0; 0; 0; 0; 0; 13].

(** An item as [createTodo] persists it. *)
Definition sampleDocument : Document :=
  {| doc__id := sampleDriverID; doc_id := Some sampleID; doc_title := "buy milk";
     doc_completed := false; doc_created_at := 1700000000 |}.

Definition sampleCollection : Collection :=
  {| documents := [sampleDocument]; calls := [] |}.

Definition emptyCollection : Collection := {| documents := []; calls := [] |}.

(** Surroundings in which no call fails. *)
Definition sampleEnv : Env :=
  {| NewObjectID := otherID; Now := 1700000060; driverID := otherDriverID;
     callErr := None; cursorErr := None |}.

(** ** Observations on requests and responses *)

(** A [[12]byte]: twelve values, each of which fits a byte. *)
Definition valid_ObjectID (id : ObjectID) : Prop :=
  length id = 12%nat ∧ Forall (λ v, v < 256) id.

(** The call that the handler of a route makes on the collection. *)
Definition call_of (r : Request) : Call :=
  match r with
  | GET => CallFind
  | POST _ => CallInsertOne
  | PUT _ _ => CallUpdateOne
  | DELETE _ => CallDeleteOne
  end.

(** The statuses that the handler of a route passes to [rnd.JSON]. *)
Definition statuses_of (r : Request) : list nat :=
  match r with
  | GET => [StatusInternalServerError; StatusOK]
  | POST _ => [StatusBadRequest; StatusInternalServerError; StatusCreated]
  | PUT _ _ => [StatusBadRequest; StatusInternalServerError; StatusOK]
  | DELETE _ => [StatusBadRequest; StatusInternalServerError; StatusNotFound; StatusOK]
  end.

(** The requests that reach the branch of [updateTodo] that answers a decode
    error and does not return: the path identifier is accepted and the body
    fails to decode. *)
Definition decode_slip (r : Request) : bool :=
  match r with
  | PUT id body => isHex24 (TrimSpace id) && bool_decide (is_Some (err body))
  | _ => false
  end.

(** The [data] of the 200 of a GET, when that is what a GET is answered. *)
Definition listed (w : Env) (c : Collection) : option (list Todo.t) :=
  match getTodos w c NewResponseWriter with
  | Some (_, rw) =>
      match written rw with
      | [Struct r] =>
          if bool_decide (status rw = Some StatusOK)
          then Some (GetTodoResponse.Data r) else None
      | _ => None
      end
  | None => None
  end.

(** Splits a goal along the branches of the handlers and of the calls they
    make on the collection. *)
Ltac handler_cases :=
  unfold getTodos, createTodo, updateTodo, deleteTodo,
    Find, InsertOne, UpdateOne, DeleteOne in *;
  repeat match goal with
  | |- context [ObjectIDFromHex ?s] => destruct (ObjectIDFromHex s) eqn:?
  | |- context [err ?b] => destruct (err b) eqn:?
  | |- context [bool_decide (?x = "")] => destruct (decide (x = ""));
      [rewrite (bool_decide_eq_true_2 (x = "")) by assumption
      |rewrite (bool_decide_eq_false_2 (x = "")) by assumption]
  | |- context [callErr ?w] => destruct (callErr w) eqn:?
  | |- context [applied ?f] => destruct (applied f) eqn:?
  | |- context [cursorErr ?w] => destruct (cursorErr w) eqn:?
  | |- context [updateFirst ?o ?t ?b ?ds] => destruct (updateFirst o t b ds) eqn:?
  | |- context [deleteFirst ?o ?ds] => destruct (deleteFirst o ds) eqn:?
  | |- context [(DeletedCount ?r =? 0)%Z] => destruct (DeletedCount r =? 0)%Z eqn:?
  end.

Lemma string_pair_ind (P : string → Prop) :
  P "" →
  (∀ c, P (String c "")) →
  (∀ c d s, P s → P (String c (String d s))) →
  ∀ s, P s.
Proof.
  intros Hnil Hone Hstep s.
  cut (P s ∧ ∀ c, P (String c s)); [tauto|].
  induction s as [|d s [IH1 IH2]]; split; auto.
Qed.

Lemma fromHexChar_isHexDigit c : isHexDigit c = bool_decide (is_Some (fromHexChar c)).
Proof. destruct c as [[] [] [] [] [] [] [] []]; vm_compute; reflexivity. Qed.

Lemma fromHexChar_None c : fromHexChar c = None ↔ isHexDigit c = false.
Proof.
  rewrite fromHexChar_isHexDigit, bool_decide_eq_false, <-eq_None_not_Some. done.
Qed.

Lemma fromHexChar_Some c : is_Some (fromHexChar c) ↔ isHexDigit c = true.
Proof. rewrite fromHexChar_isHexDigit, bool_decide_eq_true. done. Qed.

(** [hex.Decode] succeeds exactly on the strings of even length made of
    hexadecimal characters. *)
Lemma hexDecode_inr s :
  (∃ bs, hexDecode s = inr bs) ↔
  Nat.even (String.length s) = true ∧
  forallb isHexDigit (String.list_ascii_of_string s) = true.
Proof.
  induction s as [|c|c d s IH] using string_pair_ind.
  - simpl. split; [auto|eauto].
  - simpl. split; [|intros [? _]; discriminate].
    intros [bs H]. destruct (fromHexChar c); discriminate.
  - cbn [hexDecode String.length Nat.even String.list_ascii_of_string forallb].
    destruct (fromHexChar c) as [a|] eqn:Hc.
    + assert (isHexDigit c = true) as -> by (apply fromHexChar_Some; rewrite Hc; eauto).
      destruct (fromHexChar d) as [b|] eqn:Hd.
      * assert (isHexDigit d = true) as -> by (apply fromHexChar_Some; rewrite Hd; eauto).
        simpl. rewrite <-IH. destruct (hexDecode s); split; intros [? ?]; eauto; discriminate.
      * apply fromHexChar_None in Hd as ->. simpl.
        split; [intros [? ?]; discriminate|]. intros [_ ?]; discriminate.
    + apply fromHexChar_None in Hc as ->. simpl.
      split; [intros [? ?]; discriminate|]. intros [_ ?]; discriminate.
Qed.

(** [ObjectIDFromHex] accepts exactly the strings of 24 hexadecimal
    characters. *)
Lemma ObjectIDFromHex_inr s :
  (∃ objID, ObjectIDFromHex s = inr objID) ↔ isHex24 s = true.
Proof.
  unfold ObjectIDFromHex, isHex24.
  destruct (String.length s =? 24)%nat eqn:Hlen; simpl.
  - rewrite hexDecode_inr. apply Nat.eqb_eq in Hlen as ->. simpl. tauto.
  - split; [intros [? ?]|]; discriminate.
Qed.

Lemma ObjectIDFromHex_inl s :
  (∃ e, ObjectIDFromHex s = inl e) ↔ isHex24 s = false.
Proof.
  rewrite <-not_true_iff_false, <-ObjectIDFromHex_inr.
  destruct (ObjectIDFromHex s) as [e|o]; split; eauto.
  - intros _ [? ?]; discriminate.
  - intros [? ?]; discriminate.
  - intros []; eauto.
Qed.

Lemma isLowerHex24_isHex24 s : isLowerHex24 s = true → isHex24 s = true.
Proof.
  unfold isLowerHex24, isHex24. rewrite !andb_true_iff, !forallb_forall.
  intros [-> H]; split; [done|]. intros c Hc. specialize (H c Hc). revert H.
  destruct c as [[] [] [] [] [] [] [] []]; vm_compute; congruence.
Qed.

(** [Hex] and [ObjectIDFromHex] are inverse on identifiers: the identifier
    that GET lists for an item is one that PUT and DELETE decode to it. *)
Lemma hex_byte (v : byte) :
  v < 256 →
  fromHexChar (hexChar (N.shiftr v 4)) = Some (N.shiftr v 4) ∧
  fromHexChar (hexChar (N.land v 15)) = Some (N.land v 15) ∧
  N.lor (N.shiftl (N.shiftr v 4) 4) (N.land v 15) = v.
Proof.
  intros Hv.
  assert (Forall (λ n,
            fromHexChar (hexChar (N.shiftr (N.of_nat n) 4)) = Some (N.shiftr (N.of_nat n) 4) ∧
            fromHexChar (hexChar (N.land (N.of_nat n) 15)) = Some (N.land (N.of_nat n) 15) ∧
            N.lor (N.shiftl (N.shiftr (N.of_nat n) 4) 4) (N.land (N.of_nat n) 15) = N.of_nat n)
            (seq 0 256)) as Hall.
  { apply (bool_decide_unpack _). by vm_compute. }
  rewrite Forall_forall in Hall.
  rewrite <-(N2Nat.id v). apply Hall, elem_of_seq. lia.
Qed.

Lemma hexDecode_hexEncode (bs : list byte) :
  Forall (λ v, v < 256) bs → hexDecode (hexEncode bs) = inr bs.
Proof.
  induction 1 as [|v bs Hv _ IH]; [done|].
  destruct (hex_byte v Hv) as (Hhi & Hlo & Hor).
  cbn [hexEncode hexDecode]. by rewrite Hhi, Hlo, IH, Hor.
Qed.

Lemma length_hexEncode (bs : list byte) :
  String.length (hexEncode bs) = (2 * length bs)%nat.
Proof. induction bs as [|v bs IH]; simpl; [done|]. rewrite IH. lia. Qed.

Lemma ObjectIDFromHex_Hex (id : ObjectID) :
  length id = 12%nat →
  Forall (λ v, v < 256) id →
  ObjectIDFromHex (Hex id) = inr id.
Proof.
  intros Hlen Hbytes. unfold ObjectIDFromHex, Hex.
  rewrite length_hexEncode, Hlen. simpl. by apply hexDecode_hexEncode.
Qed.

(** ** Malformed identifiers *)

(** C4, as the code has it: a PUT whose path identifier, once surrounding
    white space is trimmed, is not a string of 24 hexadecimal characters (of
    either case), and a DELETE whose path identifier is not such a string, is
    answered 400; the [error] of the response is the text of the error that
    [ObjectIDFromHex] returned for that identifier; the collection is left as
    it was and no call is made on it. *)
Theorem invalid_id_rejected (w : Env) (r : Request) (c : Collection) :
  invalid_path_id r = true →
  ∃ rw p e,
    path_id_error r = Some e ∧
    todoHandlers w r c = Some (c, rw) ∧
    status rw = Some StatusBadRequest ∧
    written rw = [p] ∧
    field "error" p = Some (VErrorText e) ∧
    has_string "message" p = true.
Proof.
  destruct r as [|body|id body|id]; simpl; try discriminate.
  - intros H. apply negb_true_iff, ObjectIDFromHex_inl in H as [e He].
    unfold updateTodo. rewrite He. eexists _, _, e. by repeat split.
  - intros H. apply negb_true_iff, ObjectIDFromHex_inl in H as [e He].
    unfold deleteTodo. rewrite He. eexists _, _, e. by repeat split.
Qed.

Lemma invalid_id_rejected_witness :
  let put := PUT " 00000000000000000000000g " (mkDecoded (UpdateTodo.mk "buy bread" true) None) in
  let del := DELETE "buy milk" in
  (invalid_path_id put = true ∧
   ∃ rw p e,
     path_id_error put = Some e ∧
     todoHandlers sampleEnv put sampleCollection = Some (sampleCollection, rw) ∧
     status rw = Some StatusBadRequest ∧
     written rw = [p] ∧
     field "error" p = Some (VErrorText e) ∧
     has_string "message" p = true) ∧
  (invalid_path_id del = true ∧
   ∃ rw p e,
     path_id_error del = Some e ∧
     todoHandlers sampleEnv del sampleCollection = Some (sampleCollection, rw) ∧
     status rw = Some StatusBadRequest ∧
     written rw = [p] ∧
     field "error" p = Some (VErrorText e) ∧
     has_string "message" p = true).
Proof.
  split; (split; [reflexivity|]).
  - apply (invalid_id_rejected sampleEnv
             (PUT " 00000000000000000000000g "
                (mkDecoded (UpdateTodo.mk "buy bread" true) None)) sampleCollection).
    reflexivity.
  - apply (invalid_id_rejected sampleEnv (DELETE "buy milk") sampleCollection).
    reflexivity.
Defined.

(** C4, as stated, fails: an identifier followed by a space is not a string
    of 24 lowercase hexadecimal characters, yet PUT trims it and updates the
    item; an identifier written in uppercase is not one either, yet DELETE
    decodes it and deletes the item. *)
Lemma padded_or_uppercase_id_accepted :
  let padded := "00000000000000000000000a " in
  let upper := "00000000000000000000000A" in
  let put := updateTodo sampleEnv padded
               (mkDecoded (UpdateTodo.mk "buy bread" true) None)
               sampleCollection NewResponseWriter in
  let del := deleteTodo sampleEnv upper sampleCollection NewResponseWriter in
  (isLowerHex24 padded = false ∧
   status put.2 = Some StatusOK ∧
   calls put.1 = [CallUpdateOne] ∧
   documents put.1 = [setFields "buy bread" true sampleDocument]) ∧
  (isLowerHex24 upper = false ∧
   status del.2 = Some StatusOK ∧
   calls del.1 = [CallDeleteOne] ∧
   documents del.1 = []).
Proof. vm_compute. repeat split. Qed.

(** ** Creating an item *)

(** C2, as the code has it: a POST whose title is the empty string is
    answered 400, nothing is persisted and no call is made on the collection;
    when the body was decoded without error the response is the one of the
    title check. The title is compared as it is, without trimming: a POST
    whose body decoded and whose title is any other string, one of white space
    only included, is answered 201 (when [InsertOne] does not fail) and
    persists one item under that very title. *)
Theorem createTodo_empty_title (w : Env) (body : Decoded CreateTodo.t) (c : Collection) :
  (CreateTodo.Title (target body) = "" →
   ∃ rw p,
     todoHandlers w (POST body) c = Some (c, rw) ∧
     status rw = Some StatusBadRequest ∧
     written rw = [p] ∧
     has_string "message" p = true ∧
     (err body = None → p = M {[ "message" := VString "please add a title" ]})) ∧
  (err body = None →
   CreateTodo.Title (target body) ≠ "" →
   callErr w = None →
   ∃ c' rw d,
     todoHandlers w (POST body) c = Some (c', rw) ∧
     status rw = Some StatusCreated ∧
     documents c' = documents c ++ [d] ∧
     doc_title d = CreateTodo.Title (target body)).
Proof.
  split.
  - intros Htitle. simpl. unfold createTodo. rewrite Htitle.
    destruct (err body) as [e|]; simpl; eexists _, _; by repeat split.
  - intros Herr Htitle Hcall. simpl. unfold createTodo, InsertOne.
    rewrite Herr, Hcall. rewrite bool_decide_eq_false_2 by done.
    eexists _, _, _. by repeat split.
Qed.

Lemma createTodo_empty_title_witness :
  let empty := mkDecoded (CreateTodo.mk "") None in
  let blank := mkDecoded (CreateTodo.mk "   ") None in
  (∃ rw p,
     todoHandlers sampleEnv (POST empty) sampleCollection = Some (sampleCollection, rw) ∧
     status rw = Some StatusBadRequest ∧
     written rw = [p] ∧
     has_string "message" p = true ∧
     (err empty = None → p = M {[ "message" := VString "please add a title" ]})) ∧
  (TrimSpace "   " = "" ∧
   ∃ c' rw d,
     todoHandlers sampleEnv (POST blank) sampleCollection = Some (c', rw) ∧
     status rw = Some StatusCreated ∧
     documents c' = documents sampleCollection ++ [d] ∧
     doc_title d = "   ").
Proof.
  split.
  - apply (createTodo_empty_title sampleEnv (mkDecoded (CreateTodo.mk "") None)
             sampleCollection).
    reflexivity.
  - split; [reflexivity|].
    apply (createTodo_empty_title sampleEnv (mkDecoded (CreateTodo.mk "   ") None)
             sampleCollection); [reflexivity| |reflexivity].
    simpl. discriminate.
Defined.

(** C2, as stated, fails: a title of three spaces is empty once trimmed, yet
    the item is created with that title. *)
Lemma whitespace_title_created :
  let body := mkDecoded (CreateTodo.mk "   ") None in
  let post := createTodo sampleEnv body emptyCollection NewResponseWriter in
  TrimSpace "   " = "" ∧
  status post.2 = Some StatusCreated ∧
  documents post.1 =
    [ {| doc__id := otherDriverID; doc_id := Some otherID; doc_title := "   ";
         doc_completed := false; doc_created_at := 1700000060 |} ].
Proof. vm_compute. repeat split. Qed.

(** ** Updating an item *)

(** With a well-formed identifier, a body that fails to decode is answered
    400 whatever happens next: the status is the one written first. *)
Lemma updateTodo_decode_error_status (w : Env) (id : string) (body : Decoded UpdateTodo.t)
    (c : Collection) (objID : ObjectID) (e : error) :
  ObjectIDFromHex (TrimSpace id) = inr objID →
  err body = Some e →
  status (updateTodo w id body c NewResponseWriter).2 = Some StatusBadRequest.
Proof.
  intros Hid He. unfold updateTodo. rewrite Hid, He.
  case_bool_decide; [done|].
  destruct (UpdateOne _ _ _ _ _) as [c' [e'|r]]; done.
Qed.

(** When the decoder stored no title before it failed, the title check ends
    the handler and the collection is left as it was. *)
Lemma updateTodo_decode_error_no_title (w : Env) (id : string) (body : Decoded UpdateTodo.t)
    (c : Collection) (e : error) :
  err body = Some e →
  UpdateTodo.Title (target body) = "" →
  (updateTodo w id body c NewResponseWriter).1 = c.
Proof.
  intros He Htitle. unfold updateTodo. rewrite He, Htitle.
  destruct (ObjectIDFromHex _); done.
Qed.

(** C1 fails on the code: the body [{"title":"buy bread","completed":"yes"}]
    does not decode ([completed] is not a boolean), the decoder has stored
    the title all the same, and [updateTodo], which does not return after the
    400 of the decode error, goes on to update the item. *)
Theorem updateTodo_decode_error_updates :
  let body :=
    mkDecoded (UpdateTodo.mk "buy bread" false)
      (Some (DecodeError "json: cannot unmarshal string into Go struct field UpdateTodo.completed of type bool")) in
  let put := updateTodo sampleEnv "00000000000000000000000a" body
               sampleCollection NewResponseWriter in
  status put.2 = Some StatusBadRequest ∧
  field "message" <$> written put.2 =
    [Some (VString "could not decode the data"); Some (VString "Updated successfully")] ∧
  field "resultCount" <$> written put.2 = [None; Some (VInt64 1)] ∧
  calls put.1 = [CallUpdateOne] ∧
  documents sampleCollection = [sampleDocument] ∧
  documents put.1 = [setFields "buy bread" false sampleDocument] ∧
  documents put.1 ≠ documents sampleCollection.
Proof. vm_compute. repeat split. discriminate. Qed.

(** ** The first document a filter matches *)

Lemma matchesID_true objID d : matchesID objID d = true ↔ doc_id d = Some objID.
Proof. unfold matchesID. apply bool_decide_eq_true. Qed.

Lemma matchesID_false objID d : matchesID objID d = false ↔ doc_id d ≠ Some objID.
Proof. unfold matchesID. apply bool_decide_eq_false. Qed.

(** Either no document has the identifier, or the collection splits at the
    first one that has it. *)
Lemma first_match (objID : ObjectID) (ds : list Document) :
  Forall (λ x, doc_id x ≠ Some objID) ds ∨
  ∃ l1 d l2,
    ds = l1 ++ d :: l2 ∧ Forall (λ x, doc_id x ≠ Some objID) l1 ∧ doc_id d = Some objID.
Proof.
  induction ds as [|x ds IH]; [by left|].
  destruct (decide (doc_id x = Some objID)) as [Hx|Hx].
  - right. by exists [], x, ds.
  - destruct IH as [IH|(l1 & d & l2 & -> & Hl1 & Hd)].
    + left. by constructor.
    + right. exists (x :: l1), d, l2. repeat split; [|done]. by constructor.
Qed.

Lemma no_match_elem (objID : ObjectID) (ds : list Document) :
  Forall (λ x, doc_id x ≠ Some objID) ds →
  ¬ ∃ d, d ∈ ds ∧ doc_id d = Some objID.
Proof. rewrite Forall_forall. intros H (d & Hd & Hid). by apply (H d). Qed.

Lemma updateFirst_no_match objID title completed ds :
  Forall (λ x, doc_id x ≠ Some objID) ds →
  updateFirst objID title completed ds = (ds, {| MatchedCount := 0; ModifiedCount := 0 |}).
Proof.
  induction 1 as [|x ds Hx _ IH]; [done|].
  simpl. apply matchesID_false in Hx. by rewrite Hx, IH.
Qed.

Lemma updateFirst_split objID title completed l1 d l2 :
  Forall (λ x, doc_id x ≠ Some objID) l1 →
  doc_id d = Some objID →
  updateFirst objID title completed (l1 ++ d :: l2) =
    (l1 ++ setFields title completed d :: l2,
     {| MatchedCount := 1;
        ModifiedCount := if bool_decide (setFields title completed d = d) then 0 else 1 |}).
Proof.
  intros Hl1 Hd. induction Hl1 as [|x l1 Hx _ IH]; simpl.
  - apply matchesID_true in Hd. by rewrite Hd.
  - apply matchesID_false in Hx. by rewrite Hx, IH.
Qed.

Lemma deleteFirst_no_match objID ds :
  Forall (λ x, doc_id x ≠ Some objID) ds →
  deleteFirst objID ds = (ds, {| DeletedCount := 0 |}).
Proof.
  induction 1 as [|x ds Hx _ IH]; [done|].
  simpl. apply matchesID_false in Hx. by rewrite Hx, IH.
Qed.

Lemma deleteFirst_split objID l1 d l2 :
  Forall (λ x, doc_id x ≠ Some objID) l1 →
  doc_id d = Some objID →
  deleteFirst objID (l1 ++ d :: l2) = (l1 ++ l2, {| DeletedCount := 1 |}).
Proof.
  intros Hl1 Hd. induction Hl1 as [|x l1 Hx _ IH]; simpl.
  - apply matchesID_true in Hd. by rewrite Hd.
  - apply matchesID_false in Hx. by rewrite Hx, IH.
Qed.

(** With identifiers that are unique, no document has the identifier once
    the first that has it is gone. *)
Lemma no_match_after_delete objID l1 (d : Document) l2 :
  NoDup (doc_id <$> l1 ++ d :: l2) →
  doc_id d = Some objID →
  Forall (λ x, doc_id x ≠ Some objID) (l1 ++ l2).
Proof.
  rewrite fmap_app, fmap_cons, NoDup_app, NoDup_cons.
  intros (_ & Hl1 & Hd & _) Hid.
  rewrite Forall_app, !Forall_forall. split; intros x Hx Heq.
  - apply (Hl1 (doc_id x)); [by apply list_elem_of_fmap_2|].
    rewrite Heq, <-Hid. apply elem_of_cons. by left.
  - apply Hd. rewrite Hid, <-Heq. by apply list_elem_of_fmap_2.
Qed.

(** What it takes for [updateTodo] to answer 200. *)
Lemma updateTodo_ok_inv (w : Env) (id : string) (body : Decoded UpdateTodo.t)
    (c : Collection) (objID : ObjectID) :
  ObjectIDFromHex (TrimSpace id) = inr objID →
  status (updateTodo w id body c NewResponseWriter).2 = Some StatusOK →
  err body = None ∧ UpdateTodo.Title (target body) ≠ "" ∧ callErr w = None.
Proof.
  intros Hid. unfold updateTodo, UpdateOne. rewrite Hid.
  destruct (err body) as [e|].
  - case_bool_decide; [discriminate|].
    destruct (callErr w); [discriminate|].
    destruct (updateFirst _ _ _ _); discriminate.
  - case_bool_decide; [discriminate|].
    destruct (callErr w); [discriminate|]. done.
Qed.

(** C6: a successful update of an existing item rewrites the title and the
    completed flag of the first item with that identifier, and nothing else:
    its [_id], its [id] and its [created_at] stay, and so does every other
    item, in place. *)
Theorem update_frame (w : Env) (id : string) (body : Decoded UpdateTodo.t)
    (c : Collection) (objID : ObjectID) :
  ObjectIDFromHex (TrimSpace id) = inr objID →
  (∃ d, d ∈ documents c ∧ doc_id d = Some objID) →
  status (updateTodo w id body c NewResponseWriter).2 = Some StatusOK →
  ∃ l1 d l2 d',
    documents c = l1 ++ d :: l2 ∧
    Forall (λ x, doc_id x ≠ Some objID) l1 ∧
    doc_id d = Some objID ∧
    documents (updateTodo w id body c NewResponseWriter).1 = l1 ++ d' :: l2 ∧
    doc_title d' = UpdateTodo.Title (target body) ∧
    doc_completed d' = UpdateTodo.Completed (target body) ∧
    doc__id d' = doc__id d ∧
    doc_id d' = doc_id d ∧
    doc_created_at d' = doc_created_at d.
Proof.
  intros Hid Hex Hok.
  destruct (updateTodo_ok_inv w id body c objID Hid Hok) as (Herr & Htitle & Hcall).
  destruct (first_match objID (documents c)) as [Hno|(l1 & d & l2 & Hds & Hl1 & Hd)].
  { by destruct (no_match_elem _ _ Hno). }
  exists l1, d, l2, (setFields (UpdateTodo.Title (target body))
                      (UpdateTodo.Completed (target body)) d).
  repeat split; try done.
  unfold updateTodo, UpdateOne. rewrite Hid, Herr, Hcall, Hds.
  rewrite bool_decide_eq_false_2 by done.
  by rewrite (updateFirst_split _ _ _ _ _ _ Hl1 Hd).
Qed.

Lemma update_frame_witness :
  let body := mkDecoded (UpdateTodo.mk "buy bread" true) None in
  let id := "00000000000000000000000a" in
  ∃ l1 d l2 d',
    documents sampleCollection = l1 ++ d :: l2 ∧
    Forall (λ x, doc_id x ≠ Some sampleID) l1 ∧
    doc_id d = Some sampleID ∧
    documents (updateTodo sampleEnv id body sampleCollection NewResponseWriter).1
      = l1 ++ d' :: l2 ∧
    doc_title d' = "buy bread" ∧
    doc_completed d' = true ∧
    doc__id d' = doc__id d ∧
    doc_id d' = doc_id d ∧
    doc_created_at d' = doc_created_at d.
Proof.
  apply (update_frame sampleEnv "00000000000000000000000a"
           (mkDecoded (UpdateTodo.mk "buy bread" true) None) sampleCollection sampleID).
  - reflexivity.
  - exists sampleDocument. split; [|reflexivity]. simpl. left.
  - reflexivity.
Defined.

(** C8: a PUT with a well-formed identifier and a decoded, non-empty title
    that matches no item is answered 200 with a modified count of zero, and
    the documents are left as they were (the database answering the call). *)
Theorem update_no_match (w : Env) (id : string) (body : Decoded UpdateTodo.t)
    (c : Collection) (objID : ObjectID) :
  ObjectIDFromHex (TrimSpace id) = inr objID →
  err body = None →
  UpdateTodo.Title (target body) ≠ "" →
  callErr w = None →
  Forall (λ x, doc_id x ≠ Some objID) (documents c) →
  ∃ c' rw,
    todoHandlers w (PUT id body) c = Some (c', rw) ∧
    status rw = Some StatusOK ∧
    written rw = [M {[ "message" := VString "Updated successfully";
                       "resultCount" := VInt64 0 ]}] ∧
    documents c' = documents c.
Proof.
  intros Hid Herr Htitle Hcall Hno. simpl.
  unfold updateTodo, UpdateOne. rewrite Hid, Herr, Hcall.
  rewrite bool_decide_eq_false_2 by done.
  rewrite (updateFirst_no_match _ _ _ _ Hno).
  eexists _, _. by repeat split.
Qed.

Lemma update_no_match_witness :
  let body := mkDecoded (UpdateTodo.mk "buy bread" true) None in
  ∃ c' rw,
    todoHandlers sampleEnv (PUT "00000000000000000000000c" body) sampleCollection
      = Some (c', rw) ∧
    status rw = Some StatusOK ∧
    written rw = [M {[ "message" := VString "Updated successfully";
                       "resultCount" := VInt64 0 ]}] ∧
    documents c' = documents sampleCollection.
Proof.
  apply (update_no_match sampleEnv "00000000000000000000000c"
           (mkDecoded (UpdateTodo.mk "buy bread" true) None) sampleCollection otherID).
  - reflexivity.
  - reflexivity.
  - simpl. discriminate.
  - reflexivity.
  - repeat constructor. simpl. discriminate.
Defined.

(** ** Deleting an item *)

Lemma deleteTodo_no_match (w : Env) (id : string) (c : Collection) (objID : ObjectID) :
  ObjectIDFromHex id = inr objID →
  callErr w = None →
  Forall (λ x, doc_id x ≠ Some objID) (documents c) →
  status (deleteTodo w id c NewResponseWriter).2 = Some StatusNotFound ∧
  written (deleteTodo w id c NewResponseWriter).2 = [M {[ "message" := VString "Todo not found" ]}] ∧
  documents (deleteTodo w id c NewResponseWriter).1 = documents c.
Proof.
  intros Hid Hcall Hno. unfold deleteTodo, DeleteOne. rewrite Hid, Hcall.
  by rewrite (deleteFirst_no_match _ _ Hno).
Qed.

Lemma deleteTodo_match (w : Env) (id : string) (c : Collection) (objID : ObjectID) l1 d l2 :
  ObjectIDFromHex id = inr objID →
  callErr w = None →
  documents c = l1 ++ d :: l2 →
  Forall (λ x, doc_id x ≠ Some objID) l1 →
  doc_id d = Some objID →
  status (deleteTodo w id c NewResponseWriter).2 = Some StatusOK ∧
  written (deleteTodo w id c NewResponseWriter).2 =
    [M {[ "message" := VString "Item deleted successfully"; "resultCont" := VInt64 1 ]}] ∧
  documents (deleteTodo w id c NewResponseWriter).1 = l1 ++ l2.
Proof.
  intros Hid Hcall Hds Hl1 Hd. unfold deleteTodo, DeleteOne. rewrite Hid, Hcall, Hds.
  by rewrite (deleteFirst_split _ _ _ _ Hl1 Hd).
Qed.

(** C7: with a well-formed identifier (and the database answering the call),
    DELETE removes the first item with that identifier and no other, and
    answers 200 with a deleted count of one; when no item has the identifier
    it answers 404 and removes nothing; and with identifiers that are unique a
    second DELETE of the same identifier is such a case. *)
Theorem delete_one (w : Env) (id : string) (c : Collection) (objID : ObjectID) :
  ObjectIDFromHex id = inr objID →
  callErr w = None →
  let del := deleteTodo w id c NewResponseWriter in
  ((∃ d, d ∈ documents c ∧ doc_id d = Some objID) →
   status del.2 = Some StatusOK ∧
   written del.2 =
     [M {[ "message" := VString "Item deleted successfully"; "resultCont" := VInt64 1 ]}] ∧
   ∃ l1 d l2,
     documents c = l1 ++ d :: l2 ∧
     Forall (λ x, doc_id x ≠ Some objID) l1 ∧
     doc_id d = Some objID ∧
     documents del.1 = l1 ++ l2) ∧
  (Forall (λ x, doc_id x ≠ Some objID) (documents c) →
   status del.2 = Some StatusNotFound ∧ documents del.1 = documents c) ∧
  (NoDup (doc_id <$> documents c) →
   ∀ w', callErr w' = None →
     let again := deleteTodo w' id del.1 NewResponseWriter in
     status again.2 = Some StatusNotFound ∧ documents again.1 = documents del.1).
Proof.
  intros Hid Hcall del.
  destruct (first_match objID (documents c)) as [Hno|(l1 & d & l2 & Hds & Hl1 & Hd)].
  - destruct (deleteTodo_no_match w id c objID Hid Hcall Hno) as (Hst & _ & Hdocs).
    fold del in Hst, Hdocs.
    split; [|split].
    + intros Hex. by destruct (no_match_elem _ _ Hno).
    + done.
    + intros _ w' Hcall'.
      assert (Forall (λ x, doc_id x ≠ Some objID) (documents del.1)) as Hgone
        by (by rewrite Hdocs).
      destruct (deleteTodo_no_match w' id del.1 objID Hid Hcall' Hgone) as (? & _ & ?).
      done.
  - destruct (deleteTodo_match w id c objID l1 d l2 Hid Hcall Hds Hl1 Hd)
      as (Hst & Hwr & Hdocs).
    fold del in Hst, Hwr, Hdocs.
    assert (¬ Forall (λ x, doc_id x ≠ Some objID) (documents c)) as Hex.
    { rewrite Hds, Forall_app, Forall_cons. tauto. }
    split; [|split].
    + intros _. repeat split; [done..|]. by exists l1, d, l2.
    + intros H. by destruct Hex.
    + intros Hnodup w' Hcall'.
      assert (Forall (λ x, doc_id x ≠ Some objID) (documents del.1)) as Hgone.
      { rewrite Hdocs. apply (no_match_after_delete objID l1 d l2); [|done].
        by rewrite <-Hds. }
      destruct (deleteTodo_no_match w' id del.1 objID Hid Hcall' Hgone) as (? & _ & ?).
      done.
Qed.

Lemma delete_one_witness :
  let id := "00000000000000000000000a" in
  let del := deleteTodo sampleEnv id sampleCollection NewResponseWriter in
  let again := deleteTodo sampleEnv id del.1 NewResponseWriter in
  (status del.2 = Some StatusOK ∧
   written del.2 =
     [M {[ "message" := VString "Item deleted successfully"; "resultCont" := VInt64 1 ]}]) ∧
  (status again.2 = Some StatusNotFound ∧ documents again.1 = documents del.1).
Proof.
  destruct (delete_one sampleEnv "00000000000000000000000a" sampleCollection sampleID
              eq_refl eq_refl) as (Hmatch & _ & Hagain).
  split.
  - destruct Hmatch as (Hst & Hwr & _); [|by split].
    exists sampleDocument. split; [|reflexivity]. simpl. left.
  - apply Hagain; [|reflexivity]. simpl. repeat constructor. intros H. inversion H.
Defined.

(** ** What each handler does to the documents *)

Lemma createTodo_created (w : Env) (body : Decoded CreateTodo.t) (c : Collection)
    (rw : ResponseWriter) :
  err body = None →
  CreateTodo.Title (target body) ≠ "" →
  callErr w = None →
  createTodo w body c rw =
    ({| documents := documents c ++
          [marshal (driverID w)
             {| TodoModel.ID := NewObjectID w;
                TodoModel.Title := CreateTodo.Title (target body);
                TodoModel.Completed := false;
                TodoModel.CreatedAt := Now w |}];
        calls := calls c ++ [CallInsertOne] |},
     JSON rw StatusCreated (M {[
       "message" := VString "Todo created successfully";
       "ID" := VObjectID (driverID w) ]})).
Proof.
  intros Herr Htitle Hcall. unfold createTodo, InsertOne. rewrite Herr, Hcall.
  by rewrite bool_decide_eq_false_2 by done.
Qed.

Lemma createTodo_documents (w : Env) (body : Decoded CreateTodo.t) (c : Collection)
    (rw : ResponseWriter) :
  documents (createTodo w body c rw).1 = documents c ∨
  err body = None ∧ CreateTodo.Title (target body) ≠ "" ∧
  documents (createTodo w body c rw).1 =
    documents c ++
      [marshal (driverID w)
         {| TodoModel.ID := NewObjectID w;
            TodoModel.Title := CreateTodo.Title (target body);
            TodoModel.Completed := false;
            TodoModel.CreatedAt := Now w |}].
Proof.
  unfold createTodo, InsertOne.
  destruct (err body); [by left|].
  case_bool_decide; [by left|].
  destruct (callErr w) as [f|]; [destruct (applied f); [by right|by left]|by right].
Qed.

Lemma updateTodo_documents (w : Env) (id : string) (body : Decoded UpdateTodo.t)
    (c : Collection) (rw : ResponseWriter) :
  documents (updateTodo w id body c rw).1 = documents c ∨
  ∃ objID,
    UpdateTodo.Title (target body) ≠ "" ∧
    documents (updateTodo w id body c rw).1 =
      (updateFirst objID (UpdateTodo.Title (target body))
         (UpdateTodo.Completed (target body)) (documents c)).1.
Proof.
  unfold updateTodo, UpdateOne.
  destruct (ObjectIDFromHex _) as [e|objID]; [by left|].
  case_bool_decide; [by left|].
  destruct (callErr w) as [f|].
  { destruct (applied f); [|by left]. right. by exists objID. }
  right. exists objID. split; [done|].
  by destruct (updateFirst _ _ _ _).
Qed.

Lemma deleteTodo_documents (w : Env) (id : string) (c : Collection) (rw : ResponseWriter) :
  documents (deleteTodo w id c rw).1 = documents c ∨
  ∃ objID, documents (deleteTodo w id c rw).1 = (deleteFirst objID (documents c)).1.
Proof.
  unfold deleteTodo, DeleteOne.
  destruct (ObjectIDFromHex _) as [e|objID]; [by left|].
  destruct (callErr w) as [f|].
  { destruct (applied f); [|by left]. right. by exists objID. }
  right. exists objID.
  destruct (deleteFirst _ _) as [ds r]. simpl. by destruct (_ =? _)%Z.
Qed.


(** ** The store invariant *)







(** C10: the item that a POST persists is not completed, whatever the
    request holds. A POST whose body decoded and whose title is not empty
    (its [InsertOne] not failing) is answered 201 and adds one item, with the
    title of the request and [completed] false; and on every path of
    [createTodo] the documents are those that were there, followed by at most
    one new item, which is not completed. The handler decodes the body into
    [CreateTodo], which has the title only, and sets [Completed] to false
    itself: nothing else of the body reaches the item. *)
Theorem create_completed_false (w : Env) (body : Decoded CreateTodo.t) (c : Collection) :
  let post := createTodo w body c NewResponseWriter in
  (err body = None →
   CreateTodo.Title (target body) ≠ "" →
   callErr w = None →
   status post.2 = Some StatusCreated ∧
   ∃ d,
     documents post.1 = documents c ++ [d] ∧
     doc_title d = CreateTodo.Title (target body) ∧
     doc_completed d = false) ∧
  (documents post.1 = documents c ∨
   ∃ d,
     documents post.1 = documents c ++ [d] ∧
     doc_title d = CreateTodo.Title (target body) ∧
     doc_completed d = false).
Proof.
  simpl. split.
  - intros Herr Htitle Hcall.
    rewrite (createTodo_created _ _ _ _ Herr Htitle Hcall). simpl.
    split; [done|]. eexists. by repeat split.
  - destruct (createTodo_documents w body c NewResponseWriter) as [->|(Herr & Htitle & ->)];
      [by left|].
    right. eexists. by repeat split.
Qed.

Lemma create_completed_false_witness :
  let post := createTodo sampleEnv (mkDecoded (CreateTodo.mk "buy bread") None)
                sampleCollection NewResponseWriter in
  status post.2 = Some StatusCreated ∧
  ∃ d,
    documents post.1 = documents sampleCollection ++ [d] ∧
    doc_title d = "buy bread" ∧
    doc_completed d = false.
Proof.
  apply (create_completed_false sampleEnv (mkDecoded (CreateTodo.mk "buy bread") None)
           sampleCollection); [reflexivity| |reflexivity].
  simpl. discriminate.
Defined.

(** What holds of a POST with a non-empty title (the database answering the
    calls, and the generated identifier not the zero one): one item is
    persisted with the title, not completed, created now, under the identifier
    that [createTodo] generated; the response is a 201; and a GET that follows
    lists the item last, under that identifier. *)
Lemma create_then_list (w w' : Env) (body : Decoded CreateTodo.t) (c : Collection) :
  err body = None →
  CreateTodo.Title (target body) ≠ "" →
  callErr w = None →
  IsZero (NewObjectID w) = false →
  callErr w' = None →
  cursorErr w' = None →
  ∃ c1 rw1 c2 rw2 l,
    todoHandlers w (POST body) c = Some (c1, rw1) ∧
    status rw1 = Some StatusCreated ∧
    documents c1 = documents c ++
      [ {| doc__id := driverID w; doc_id := Some (NewObjectID w);
           doc_title := CreateTodo.Title (target body);
           doc_completed := false; doc_created_at := Now w |} ] ∧
    todoHandlers w' GET c1 = Some (c2, rw2) ∧
    status rw2 = Some StatusOK ∧
    written rw2 = [Struct {|
      GetTodoResponse.Message := "All todos retrieved";
      GetTodoResponse.Data := l ++
        [ {| Todo.ID := Hex (NewObjectID w);
             Todo.Title := CreateTodo.Title (target body);
             Todo.Completed := false;
             Todo.CreatedAt := Now w |} ] |}].
Proof.
  intros Herr Htitle Hcall Hzero Hcall' Hcursor. simpl.
  rewrite (createTodo_created _ _ _ _ Herr Htitle Hcall).
  unfold getTodos, Find. rewrite Hcall', Hcursor. simpl.
  unfold marshal. simpl. rewrite Hzero.
  eexists _, _, _, _, _. repeat split.
  cbn [documents]. by rewrite !fmap_app.
Qed.

(** C5 fails on the code in what the response returns. The item is persisted
    under the identifier that [createTodo] generated ([sampleID], listed by
    GET as [...0a]); the [ID] of the 201 is [result.InsertedID], the [_id]
    that the driver generated for the document ([sampleDriverID], [...0b]).
    A DELETE or a PUT with the returned identifier finds no item. *)
Theorem createTodo_returns_driver_id :
  let w := {| NewObjectID := sampleID; Now := 1700000000; driverID := sampleDriverID;
              callErr := None; cursorErr := None |} in
  let post := createTodo w (mkDecoded (CreateTodo.mk "buy milk") None)
                emptyCollection NewResponseWriter in
  let returned := Hex sampleDriverID in
  let del := deleteTodo sampleEnv returned post.1 NewResponseWriter in
  let put := updateTodo sampleEnv returned (mkDecoded (UpdateTodo.mk "buy milk" true) None)
               post.1 NewResponseWriter in
  status post.2 = Some StatusCreated ∧
  documents post.1 = [sampleDocument] ∧
  field "ID" <$> written post.2 = [Some (VObjectID sampleDriverID)] ∧
  doc_id sampleDocument = Some sampleID ∧
  sampleDriverID ≠ sampleID ∧
  (snd <$> getTodos sampleEnv post.1 NewResponseWriter) =
    Some (JSON NewResponseWriter StatusOK (Struct {|
      GetTodoResponse.Message := "All todos retrieved";
      GetTodoResponse.Data :=
        [ {| Todo.ID := "00000000000000000000000a"; Todo.Title := "buy milk";
             Todo.Completed := false; Todo.CreatedAt := 1700000000 |} ] |})) ∧
  returned = "00000000000000000000000b" ∧
  status del.2 = Some StatusNotFound ∧
  documents del.1 = [sampleDocument] ∧
  status put.2 = Some StatusOK ∧
  field "resultCount" <$> written put.2 = [Some (VInt64 0)] ∧
  documents put.1 = [sampleDocument].
Proof. vm_compute. repeat split. discriminate. Qed.

(** The identifier that the 201 returns addresses no item: the item is stored
    under the identifier that [createTodo] generated, not under the [_id] of
    its document. *)
Lemma returned_id_not_found (w w' : Env) (body : Decoded CreateTodo.t) (c : Collection) :
  err body = None →
  CreateTodo.Title (target body) ≠ "" →
  callErr w = None →
  callErr w' = None →
  length (driverID w) = 12%nat →
  Forall (λ v, v < 256) (driverID w) →
  driverID w ≠ NewObjectID w →
  Forall (λ x, doc_id x ≠ Some (driverID w)) (documents c) →
  let post := createTodo w body c NewResponseWriter in
  let del := deleteTodo w' (Hex (driverID w)) post.1 NewResponseWriter in
  written post.2 = [M {[ "message" := VString "Todo created successfully";
                         "ID" := VObjectID (driverID w) ]}] ∧
  status del.2 = Some StatusNotFound ∧
  documents del.1 = documents post.1.
Proof.
  intros Herr Htitle Hcall Hcall' Hlen Hbytes Hne Hno post del.
  subst del post. rewrite (createTodo_created _ _ _ _ Herr Htitle Hcall).
  split; [done|]. cbn [fst].
  match goal with |- context [deleteTodo w' _ ?c1 _] =>
    destruct (deleteTodo_no_match w' (Hex (driverID w)) c1 (driverID w))
      as (Hst & _ & Hdocs)
  end; [by apply ObjectIDFromHex_Hex|done| |done].
  cbn [documents]. rewrite Forall_app, Forall_cons. repeat split; [done| |done].
  unfold marshal. simpl. destruct (IsZero _); [done|]. congruence.
Qed.

(** The scenario of the specification, addressing the item by the identifier
    that GET lists for it. *)
Example scenario_buy_milk :
  let w1 := {| NewObjectID := sampleID; Now := 1700000000; driverID := sampleDriverID;
               callErr := None; cursorErr := None |} in
  let post := createTodo w1 (mkDecoded (CreateTodo.mk "buy milk") None)
                emptyCollection NewResponseWriter in
  let put := updateTodo sampleEnv "00000000000000000000000a"
               (mkDecoded (UpdateTodo.mk "buy milk" true) None) post.1 NewResponseWriter in
  let del := deleteTodo sampleEnv "00000000000000000000000a" put.1 NewResponseWriter in
  let again := deleteTodo sampleEnv "00000000000000000000000a" del.1 NewResponseWriter in
  status post.2 = Some StatusCreated ∧
  documents post.1 = [sampleDocument] ∧
  status put.2 = Some StatusOK ∧
  field "resultCount" <$> written put.2 = [Some (VInt64 1)] ∧
  documents put.1 = [setFields "buy milk" true sampleDocument] ∧
  status del.2 = Some StatusOK ∧
  field "resultCont" <$> written del.2 = [Some (VInt64 1)] ∧
  documents del.1 = [] ∧
  status again.2 = Some StatusNotFound.
Proof. vm_compute. repeat split. Qed.

(** ** The response envelope *)

(** The modified count is one when the update changed the documents, zero
    when it left them as they were. *)
Lemma updateFirst_ModifiedCount objID title completed ds :
  ModifiedCount (updateFirst objID title completed ds).2 =
    if bool_decide ((updateFirst objID title completed ds).1 = ds) then 0%Z else 1%Z.
Proof.
  destruct (first_match objID ds) as [Hno|(l1 & d & l2 & -> & Hl1 & Hd)].
  - rewrite (updateFirst_no_match _ _ _ _ Hno). simpl.
    by rewrite bool_decide_eq_true_2.
  - rewrite (updateFirst_split _ _ _ _ _ _ Hl1 Hd). simpl.
    destruct (decide (setFields title completed d = d)) as [Heq|Hne].
    + rewrite !bool_decide_eq_true_2; [done| |done]. by rewrite Heq.
    + rewrite !bool_decide_eq_false_2; [done| |done].
      intros H. apply app_inv_head in H. by injection H.
Qed.

(** The deleted count is the number of documents that are gone. *)
Lemma deleteFirst_DeletedCount objID ds :
  DeletedCount (deleteFirst objID ds).2 =
    (Z.of_nat (length ds) - Z.of_nat (length (deleteFirst objID ds).1))%Z.
Proof.
  destruct (first_match objID ds) as [Hno|(l1 & d & l2 & -> & Hl1 & Hd)].
  - rewrite (deleteFirst_no_match _ _ Hno). simpl. lia.
  - rewrite (deleteFirst_split _ _ _ _ Hl1 Hd). simpl.
    rewrite !length_app. simpl. lia.
Qed.

Lemma invalid_path_id_PUT id body :
  invalid_path_id (PUT id body) = true ↔ ∃ e, ObjectIDFromHex (TrimSpace id) = inl e.
Proof. simpl. by rewrite negb_true_iff, ObjectIDFromHex_inl. Qed.

Lemma invalid_path_id_DELETE id :
  invalid_path_id (DELETE id) = true ↔ ∃ e, ObjectIDFromHex id = inl e.
Proof. simpl. by rewrite negb_true_iff, ObjectIDFromHex_inl. Qed.

Lemma all_have_message (w : Env) (r : Request) (c c' : Collection) (rw : ResponseWriter) :
  todoHandlers w r c = Some (c', rw) → all_have "message" rw.
Proof.
  unfold all_have. destruct r as [|body|id body|id]; simpl.
  - unfold getTodos, Find.
    destruct (callErr w); [|destruct (cursorErr w)]; intros [= <- <-];
      by repeat constructor.
  - intros [= H]. apply (f_equal snd) in H. simpl in H. subst rw.
    unfold createTodo, InsertOne.
    destruct (err body); [by repeat constructor|].
    case_bool_decide; [by repeat constructor|].
    destruct (callErr w); by repeat constructor.
  - intros [= H]. apply (f_equal snd) in H. simpl in H. subst rw.
    unfold updateTodo, UpdateOne.
    destruct (ObjectIDFromHex _); [by repeat constructor|].
    destruct (err body); (case_bool_decide; [by repeat constructor|]);
      (destruct (callErr w); [by repeat constructor|]);
      destruct (updateFirst _ _ _ _); by repeat constructor.
  - intros [= H]. apply (f_equal snd) in H. simpl in H. subst rw.
    unfold deleteTodo, DeleteOne.
    destruct (ObjectIDFromHex _); [by repeat constructor|].
    destruct (callErr w); [by repeat constructor|].
    destruct (deleteFirst _ _) as [ds res]. simpl.
    destruct (_ =? _)%Z; by repeat constructor.
Qed.

Lemma all_have_error (w : Env) (r : Request) (c c' : Collection) (rw : ResponseWriter) :
  todoHandlers w r c = Some (c', rw) →
  status rw = Some StatusInternalServerError ∨ invalid_path_id r = true →
  all_have "error" rw.
Proof.
  unfold all_have. destruct r as [|body|id body|id].
  - simpl. unfold getTodos, Find.
    destruct (callErr w); [|destruct (cursorErr w)]; intros [= <- <-];
      [by repeat constructor|]. simpl. intros [|]; discriminate.
  - simpl. intros [= H]. apply (f_equal snd) in H. simpl in H. subst rw.
    unfold createTodo, InsertOne.
    destruct (err body); [intros [|]; discriminate|].
    case_bool_decide; [intros [|]; discriminate|].
    destruct (callErr w); [by repeat constructor|]. intros [|]; discriminate.
  - rewrite invalid_path_id_PUT. simpl.
    intros [= H]. apply (f_equal snd) in H. simpl in H. subst rw.
    unfold updateTodo, UpdateOne.
    destruct (ObjectIDFromHex _); [by repeat constructor|].
    intros [Hst|[? ?]]; [|discriminate]. revert Hst.
    destruct (err body); (case_bool_decide; [discriminate|]);
      (destruct (callErr w); [|destruct (updateFirst _ _ _ _)]);
      try discriminate.
    by repeat constructor.
  - rewrite invalid_path_id_DELETE. simpl.
    intros [= H]. apply (f_equal snd) in H. simpl in H. subst rw.
    unfold deleteTodo, DeleteOne.
    destruct (ObjectIDFromHex _); [by repeat constructor|].
    intros [Hst|[? ?]]; [|discriminate]. revert Hst.
    destruct (callErr w); [by repeat constructor|].
    destruct (deleteFirst _ _) as [ds res]. simpl.
    destruct (_ =? _)%Z; discriminate.
Qed.

Lemma createTodo_envelope (w : Env) (body : Decoded CreateTodo.t) (c : Collection) :
  let post := createTodo w body c NewResponseWriter in
  (status post.2 = Some StatusCreated →
   ∃ d, documents post.1 = documents c ++ [d] ∧
        written post.2 = [M {[ "message" := VString "Todo created successfully";
                               "ID" := VObjectID (doc__id d) ]}]) ∧
  (err body = None → status post.2 = Some StatusBadRequest →
   written post.2 = [M {[ "message" := VString "please add a title" ]}]).
Proof.
  unfold createTodo, InsertOne.
  destruct (err body); [|case_bool_decide; [|destruct (callErr w)]]; simpl;
    (split; [try discriminate|try discriminate; try done]).
  intros _. by eexists.
Qed.

Lemma updateTodo_envelope (w : Env) (id : string) (body : Decoded UpdateTodo.t) (c : Collection) :
  let put := updateTodo w id body c NewResponseWriter in
  (status put.2 = Some StatusOK →
   written put.2 =
     [M {[ "message" := VString "Updated successfully";
           "resultCount" :=
             VInt64 (if bool_decide (documents put.1 = documents c) then 0 else 1) ]}]) ∧
  (∀ e, isHex24 (TrimSpace id) = true → err body = Some e →
     ∃ p, head (written put.2) = Some p ∧ field "error" p = Some (VErrorText e)) ∧
  (isHex24 (TrimSpace id) = true → err body = None →
   status put.2 = Some StatusBadRequest →
   written put.2 = [M {[ "message" := VString "title cannot be empty" ]}]).
Proof.
  unfold updateTodo, UpdateOne.
  destruct (ObjectIDFromHex (TrimSpace id)) as [e|objID] eqn:Hid.
  { assert (isHex24 (TrimSpace id) = false) as -> by (apply ObjectIDFromHex_inl; eauto).
    simpl. repeat split; discriminate. }
  destruct (err body) as [e|]; (case_bool_decide; [|destruct (callErr w)]); simpl;
    try (repeat split; try discriminate;
         first [ intros ? _ [= <-]; by eexists | done ]).
  - pose proof (updateFirst_ModifiedCount objID (UpdateTodo.Title (target body))
                  (UpdateTodo.Completed (target body)) (documents c)) as Hcount.
    destruct (updateFirst _ _ _ _) as [ds res]. simpl in *.
    repeat split; try discriminate. intros ? _ [= <-]. by eexists.
  - pose proof (updateFirst_ModifiedCount objID (UpdateTodo.Title (target body))
                  (UpdateTodo.Completed (target body)) (documents c)) as Hcount.
    destruct (updateFirst _ _ _ _) as [ds res]. simpl in *.
    repeat split; try discriminate. intros _. by rewrite Hcount.
Qed.

Lemma deleteTodo_envelope (w : Env) (id : string) (c : Collection) :
  let del := deleteTodo w id c NewResponseWriter in
  (status del.2 = Some StatusOK →
   ∃ p k, written del.2 = [p] ∧ k ≠ "message" ∧
          field k p = Some (VInt64 (Z.of_nat (length (documents c)) -
                                    Z.of_nat (length (documents del.1))))) ∧
  (status del.2 = Some StatusNotFound →
   written del.2 = [M {[ "message" := VString "Todo not found" ]}]).
Proof.
  unfold deleteTodo, DeleteOne.
  destruct (ObjectIDFromHex id) as [e|objID]; [simpl; split; discriminate|].
  destruct (callErr w); [simpl; split; discriminate|].
  pose proof (deleteFirst_DeletedCount objID (documents c)) as Hcount.
  destruct (deleteFirst _ _) as [ds res]. simpl in *.
  destruct (_ =? _)%Z; simpl; (split; [|try discriminate]); try discriminate.
  - done.
  - intros _. eexists _, "resultCont". rewrite <-Hcount. by repeat split.
Qed.

(** C3, as the code has it. Every JSON response has a [message] string. The
    201 of a create carries, under [ID], the identifier that the database
    reports for the inserted document; the 200 of an update carries, under
    [resultCount], the number of documents modified; the 200 of a delete
    carries the number of documents deleted. The responses to a failed
    database call (500), to an invalid path identifier and to an update body
    that does not decode have an [error] string; the 400 of the title check,
    of a create and of an update, and the 404 of a delete consist of the
    [message] member and nothing else. *)
Theorem response_envelope (w : Env) (c : Collection) (id : string)
    (cbody : Decoded CreateTodo.t) (ubody : Decoded UpdateTodo.t) :
  let post := createTodo w cbody c NewResponseWriter in
  let put := updateTodo w id ubody c NewResponseWriter in
  let del := deleteTodo w id c NewResponseWriter in
  (∀ r c' rw, todoHandlers w r c = Some (c', rw) → all_have "message" rw) ∧
  (status post.2 = Some StatusCreated →
   ∃ d, documents post.1 = documents c ++ [d] ∧
        written post.2 = [M {[ "message" := VString "Todo created successfully";
                               "ID" := VObjectID (doc__id d) ]}]) ∧
  (status put.2 = Some StatusOK →
   written put.2 =
     [M {[ "message" := VString "Updated successfully";
           "resultCount" :=
             VInt64 (if bool_decide (documents put.1 = documents c) then 0 else 1) ]}]) ∧
  (status del.2 = Some StatusOK →
   ∃ p k, written del.2 = [p] ∧ k ≠ "message" ∧
          field k p = Some (VInt64 (Z.of_nat (length (documents c)) -
                                    Z.of_nat (length (documents del.1))))) ∧
  (∀ r c' rw, todoHandlers w r c = Some (c', rw) →
     status rw = Some StatusInternalServerError ∨ invalid_path_id r = true →
     all_have "error" rw) ∧
  (∀ e, isHex24 (TrimSpace id) = true → err ubody = Some e →
     ∃ p, head (written put.2) = Some p ∧ field "error" p = Some (VErrorText e)) ∧
  (err cbody = None → status post.2 = Some StatusBadRequest →
   written post.2 = [M {[ "message" := VString "please add a title" ]}]) ∧
  (isHex24 (TrimSpace id) = true → err ubody = None →
   status put.2 = Some StatusBadRequest →
   written put.2 = [M {[ "message" := VString "title cannot be empty" ]}]) ∧
  (status del.2 = Some StatusNotFound →
   written del.2 = [M {[ "message" := VString "Todo not found" ]}]).
Proof.
  intros post put del.
  destruct (createTodo_envelope w cbody c) as (Hc1 & Hc2).
  destruct (updateTodo_envelope w id ubody c) as (Hu1 & Hu2 & Hu3).
  destruct (deleteTodo_envelope w id c) as (Hd1 & Hd2).
  split; [intros r c' rw; apply all_have_message|].
  split; [exact Hc1|]. split; [exact Hu1|]. split; [exact Hd1|].
  split; [intros r c' rw; apply all_have_error|].
  split; [exact Hu2|]. split; [exact Hc2|]. split; [exact Hu3|exact Hd2].
Qed.

(** C3, as stated, fails: the successful responses carry no member [id],
    [modifiedCount] or [deletedCount], and the 400 of a create with an empty
    title carries no [error]. *)
Lemma envelope_members_differ :
  let post := createTodo sampleEnv (mkDecoded (CreateTodo.mk "buy bread") None)
                sampleCollection NewResponseWriter in
  let put := updateTodo sampleEnv "00000000000000000000000a"
               (mkDecoded (UpdateTodo.mk "buy bread" true) None)
               sampleCollection NewResponseWriter in
  let del := deleteTodo sampleEnv "00000000000000000000000a"
               sampleCollection NewResponseWriter in
  let bad := createTodo sampleEnv (mkDecoded (CreateTodo.mk "") None)
               sampleCollection NewResponseWriter in
  (status post.2 = Some StatusCreated ∧ field "id" <$> written post.2 = [None]) ∧
  (status put.2 = Some StatusOK ∧ field "modifiedCount" <$> written put.2 = [None]) ∧
  (status del.2 = Some StatusOK ∧ field "deletedCount" <$> written del.2 = [None]) ∧
  (status bad.2 = Some StatusBadRequest ∧ field "error" <$> written bad.2 = [None]).
Proof. vm_compute. repeat split. Qed.

(** * Further properties of the handlers *)

(** ** Listing *)

Lemma listed_eq (w : Env) (c : Collection) :
  callErr w = None →
  cursorErr w = None →
  listed w c =
    Some ((λ d, {| Todo.ID := Hex (default NilObjectID (doc_id d));
                   Todo.Title := doc_title d;
                   Todo.Completed := doc_completed d;
                   Todo.CreatedAt := doc_created_at d |}) <$> documents c).
Proof.
  intros Hcall Hcursor. unfold listed, getTodos, Find. rewrite Hcall, Hcursor. simpl.
  f_equal. rewrite <-list_fmap_compose. done.
Qed.

(** X1: when neither [Find] nor [cursor.All] fails, a GET is answered 200,
    makes the one call [Find], leaves the documents as they are, and lists one
    entry for each document, in the order of the collection: the entry has the
    title, the completed flag and the creation time of its document, and as
    identifier the hexadecimal form of the document's [id] (of the zero
    identifier for a document without one). An empty collection is listed as
    an empty sequence. *)
Theorem getTodos_lists_every_document (w : Env) (c : Collection) :
  callErr w = None →
  cursorErr w = None →
  ∃ data,
    getTodos w c NewResponseWriter =
      Some ({| documents := documents c; calls := calls c ++ [CallFind] |},
            {| status := Some StatusOK;
               written := [Struct {| GetTodoResponse.Message := "All todos retrieved";
                                     GetTodoResponse.Data := data |}] |}) ∧
    length data = length (documents c) ∧
    ∀ i d, documents c !! i = Some d →
      ∃ e, data !! i = Some e ∧
           Todo.ID e = Hex (default NilObjectID (doc_id d)) ∧
           Todo.Title e = doc_title d ∧
           Todo.Completed e = doc_completed d ∧
           Todo.CreatedAt e = doc_created_at d.
Proof.
  intros Hcall Hcursor. unfold getTodos, Find. rewrite Hcall, Hcursor. simpl.
  eexists. split; [reflexivity|]. split.
  - by rewrite !length_fmap.
  - intros i d Hd. rewrite !list_lookup_fmap, Hd. simpl. by eexists.
Qed.

Lemma getTodos_lists_every_document_witness :
  ∃ data,
    getTodos sampleEnv sampleCollection NewResponseWriter =
      Some ({| documents := documents sampleCollection;
               calls := calls sampleCollection ++ [CallFind] |},
            {| status := Some StatusOK;
               written := [Struct {| GetTodoResponse.Message := "All todos retrieved";
                                     GetTodoResponse.Data := data |}] |}) ∧
    length data = length (documents sampleCollection) ∧
    ∀ i d, documents sampleCollection !! i = Some d →
      ∃ e, data !! i = Some e ∧
           Todo.ID e = Hex (default NilObjectID (doc_id d)) ∧
           Todo.Title e = doc_title d ∧
           Todo.Completed e = doc_completed d ∧
           Todo.CreatedAt e = doc_created_at d.
Proof.
  apply (getTodos_lists_every_document sampleEnv sampleCollection); reflexivity.
Defined.


(** ** Statuses, calls and what a failure leaves behind *)

Lemma isHex24_ObjectIDFromHex (s : string) :
  isHex24 s = match ObjectIDFromHex s with inl _ => false | inr _ => true end.
Proof.
  destruct (ObjectIDFromHex s) as [e|objID] eqn:H.
  - apply ObjectIDFromHex_inl. eauto.
  - apply ObjectIDFromHex_inr. eauto.
Qed.

(** X3: every request that is answered has a status, and it is one of those
    of its route: 200 or 500 for GET; 201, 400 or 500 for POST; 200, 400 or
    500 for PUT; 200, 400, 404 or 500 for DELETE. One JSON body is written,
    except for a PUT with an accepted identifier whose body fails to decode:
    that response has status 400 and two bodies. *)
Theorem status_by_route (w : Env) (r : Request) (c c' : Collection) (rw : ResponseWriter) :
  todoHandlers w r c = Some (c', rw) →
  ∃ st,
    status rw = Some st ∧
    st ∈ statuses_of r ∧
    length (written rw) = (if decode_slip r then 2 else 1)%nat ∧
    (decode_slip r = true → st = StatusBadRequest).
Proof.
  destruct r as [|body|id body|id]; simpl; [| |rewrite isHex24_ObjectIDFromHex|];
    handler_cases; intros H; simplify_eq/=;
    eexists; (split; [reflexivity|]); (split; [set_solver|]); by split.
Qed.

Lemma status_by_route_witness :
  let body := mkDecoded (UpdateTodo.mk "" false) (Some (DecodeError "unexpected EOF")) in
  let r := PUT "00000000000000000000000a" body in
  ∃ st,
    status (updateTodo sampleEnv "00000000000000000000000a" body
              sampleCollection NewResponseWriter).2 = Some st ∧
    st ∈ statuses_of r ∧
    length (written (updateTodo sampleEnv "00000000000000000000000a" body
                       sampleCollection NewResponseWriter).2)
      = (if decode_slip r then 2 else 1)%nat ∧
    (decode_slip r = true → st = StatusBadRequest).
Proof.
  apply (status_by_route sampleEnv
           (PUT "00000000000000000000000a"
              (mkDecoded (UpdateTodo.mk "" false) (Some (DecodeError "unexpected EOF"))))
           sampleCollection
           (updateTodo sampleEnv "00000000000000000000000a"
              (mkDecoded (UpdateTodo.mk "" false) (Some (DecodeError "unexpected EOF")))
              sampleCollection NewResponseWriter).1).
  reflexivity.
Defined.

(** X4: a request makes at most one call on the collection, the one of its
    route ([Find], [InsertOne], [UpdateOne], [DeleteOne]); when it makes none,
    the documents are the ones it found. *)
Theorem at_most_one_call (w : Env) (r : Request) (c c' : Collection) (rw : ResponseWriter) :
  todoHandlers w r c = Some (c', rw) →
  c' = c ∨ calls c' = calls c ++ [call_of r].
Proof.
  destruct r as [|body|id body|id]; simpl;
    handler_cases; intros H; simplify_eq/=; auto.
Qed.

Lemma at_most_one_call_witness :
  let post := createTodo sampleEnv (mkDecoded (CreateTodo.mk "buy bread") None)
                sampleCollection NewResponseWriter in
  post.1 = sampleCollection ∨ calls post.1 = calls sampleCollection ++ [CallInsertOne].
Proof.
  apply (at_most_one_call sampleEnv (POST (mkDecoded (CreateTodo.mk "buy bread") None))
           sampleCollection _ (createTodo sampleEnv (mkDecoded (CreateTodo.mk "buy bread") None)
                                 sampleCollection NewResponseWriter).2).
  reflexivity.
Defined.

(** X5: a request answered 400 has touched nothing: no call was made on the
    collection and the documents are as before. The one exception is the PUT
    with an accepted identifier whose body fails to decode. *)
Theorem bad_request_touches_nothing (w : Env) (r : Request) (c c' : Collection)
    (rw : ResponseWriter) :
  todoHandlers w r c = Some (c', rw) →
  status rw = Some StatusBadRequest →
  decode_slip r = false →
  c' = c.
Proof.
  destruct r as [|body|id body|id]; simpl; [| |rewrite isHex24_ObjectIDFromHex|];
    handler_cases; intros H Hst Hslip; simplify_eq/=; try done.
Qed.

Lemma bad_request_touches_nothing_witness :
  (createTodo sampleEnv (mkDecoded (CreateTodo.mk "buy bread")
                           (Some (DecodeError "unexpected EOF")))
     sampleCollection NewResponseWriter).1 = sampleCollection.
Proof.
  apply (bad_request_touches_nothing sampleEnv
           (POST (mkDecoded (CreateTodo.mk "buy bread") (Some (DecodeError "unexpected EOF"))))
           sampleCollection _
           (createTodo sampleEnv (mkDecoded (CreateTodo.mk "buy bread")
                                    (Some (DecodeError "unexpected EOF")))
              sampleCollection NewResponseWriter).2);
    reflexivity.
Defined.

(** X6: a request is answered 500 only when its call on the collection
    returned an error; the call was made and is the only one, and the response
    has one body, whose [error] is the text of that error. Nothing is said of
    the documents: the driver may return its error before or after the write
    was applied, and the handler cannot tell which. *)
Theorem server_error_only_on_failed_call (w : Env) (r : Request) (c c' : Collection)
    (rw : ResponseWriter) :
  todoHandlers w r c = Some (c', rw) →
  status rw = Some StatusInternalServerError →
  ∃ f p,
    callErr w = Some f ∧
    calls c' = calls c ++ [call_of r] ∧
    written rw = [p] ∧
    field "error" p = Some (VErrorText (failure f)) ∧
    has_string "message" p = true.
Proof.
  destruct r as [|body|id body|id]; simpl;
    handler_cases; intros H Hst; simplify_eq/=;
    eexists _, _; by repeat split.
Qed.

Lemma server_error_only_on_failed_call_witness :
  let w := {| NewObjectID := otherID; Now := 1700000060; driverID := otherDriverID;
              callErr := Some (mkFailure (DriverError "context deadline exceeded") true);
              cursorErr := None |} in
  let del := deleteTodo w "00000000000000000000000a" sampleCollection NewResponseWriter in
  ∃ f p,
    callErr w = Some f ∧
    calls del.1 = calls sampleCollection ++ [CallDeleteOne] ∧
    written del.2 = [p] ∧
    field "error" p = Some (VErrorText (failure f)) ∧
    has_string "message" p = true.
Proof.
  apply (server_error_only_on_failed_call
           {| NewObjectID := otherID; Now := 1700000060; driverID := otherDriverID;
              callErr := Some (mkFailure (DriverError "context deadline exceeded") true);
              cursorErr := None |}
           (DELETE "00000000000000000000000a") sampleCollection);
    reflexivity.
Defined.

(** ** When the documents change *)


(** X8: a DELETE is answered 200 exactly when its identifier is accepted,
    [DeleteOne] returned no error and some document has the identifier.
    Whatever the answer, the documents left are documents that were there, in
    their order and unmodified; one is gone when the answer is 200, none when
    it is 400 or 404. (After a 500 the deletion may or may not have been
    applied.) *)
Theorem deleted_iff_200 (w : Env) (id : string) (c : Collection) :
  let del := deleteTodo w id c NewResponseWriter in
  (status del.2 = Some StatusOK ↔
   ∃ objID, ObjectIDFromHex id = inr objID ∧ callErr w = None ∧
            ∃ d, d ∈ documents c ∧ doc_id d = Some objID) ∧
  documents del.1 `sublist_of` documents c ∧
  (status del.2 = Some StatusOK → length (documents c) = S (length (documents del.1))) ∧
  (status del.2 = Some StatusBadRequest ∨ status del.2 = Some StatusNotFound →
   documents del.1 = documents c).
Proof.
  simpl. unfold deleteTodo, DeleteOne.
  destruct (ObjectIDFromHex id) as [e|objID] eqn:Hid; simpl.
  { repeat split; try done; try (by intros [|]). intros (? & ? & _). discriminate. }
  destruct (callErr w) as [f|] eqn:Hcall; simpl.
  { repeat split; try done.
    - intros (? & _ & ? & _). discriminate.
    - destruct (applied f); [|done].
      destruct (first_match objID (documents c)) as [Hno|(l1 & d & l2 & Hds & Hl1 & Hd)].
      + by rewrite (deleteFirst_no_match _ _ Hno).
      + rewrite Hds, (deleteFirst_split _ _ _ _ Hl1 Hd). simpl.
        apply sublist_app; [done|]. by apply sublist_cons.
    - by intros [|]. }
  destruct (first_match objID (documents c)) as [Hno|(l1 & d & l2 & Hds & Hl1 & Hd)].
  - rewrite (deleteFirst_no_match _ _ Hno). simpl.
    repeat split; try done; try (by intros [|]).
    intros (o & [= <-] & _ & Hex). by destruct (no_match_elem _ _ Hno).
  - rewrite Hds, (deleteFirst_split _ _ _ _ Hl1 Hd). simpl.
    repeat split; try done; try (by intros [|]).
    + intros _. exists objID. repeat split. exists d. split; [|done].
      apply elem_of_app. right. by left.
    + apply sublist_app; [done|]. by apply sublist_cons.
    + intros _. rewrite !length_app. simpl. lia.
Qed.

Lemma updateFirst_identity objID title completed ds :
  (λ d, (doc__id d, doc_id d, doc_created_at d)) <$> (updateFirst objID title completed ds).1 =
  (λ d, (doc__id d, doc_id d, doc_created_at d)) <$> ds.
Proof.
  destruct (first_match objID ds) as [Hno|(l1 & d & l2 & -> & Hl1 & Hd)].
  - by rewrite (updateFirst_no_match _ _ _ _ Hno).
  - rewrite (updateFirst_split _ _ _ _ _ _ Hl1 Hd). simpl.
    by rewrite !fmap_app, !fmap_cons.
Qed.

(** X9: whatever a PUT is given and however it is answered, the collection
    has the same documents in the same places afterwards as far as [_id],
    [id] and [created_at] go: a PUT creates no item, removes none, and changes
    no identifier and no creation time. *)
Theorem update_keeps_identity (w : Env) (id : string) (body : Decoded UpdateTodo.t)
    (c : Collection) :
  (λ d, (doc__id d, doc_id d, doc_created_at d))
    <$> documents (updateTodo w id body c NewResponseWriter).1 =
  (λ d, (doc__id d, doc_id d, doc_created_at d)) <$> documents c.
Proof.
  destruct (updateTodo_documents w id body c NewResponseWriter) as [->|(objID & _ & ->)];
    [done|].
  apply updateFirst_identity.
Qed.

(** X10: a PUT is answered 200 exactly when its identifier, once trimmed, is
    accepted, its body decoded, its title is not empty and [UpdateOne] did not
    fail; whether an item has the identifier plays no part. *)
Theorem updated_iff_200 (w : Env) (id : string) (body : Decoded UpdateTodo.t)
    (c : Collection) :
  status (updateTodo w id body c NewResponseWriter).2 = Some StatusOK ↔
  isHex24 (TrimSpace id) = true ∧ err body = None ∧
  UpdateTodo.Title (target body) ≠ "" ∧ callErr w = None.
Proof.
  rewrite isHex24_ObjectIDFromHex.
  handler_cases; simpl; split; try done; try (intros (? & ? & ? & ?); done).
Qed.

Lemma updateFirst_twice objID title completed ds :
  updateFirst objID title completed (updateFirst objID title completed ds).1 =
    ((updateFirst objID title completed ds).1,
     {| MatchedCount := MatchedCount (updateFirst objID title completed ds).2;
        ModifiedCount := 0 |}).
Proof.
  destruct (first_match objID ds) as [Hno|(l1 & d & l2 & -> & Hl1 & Hd)].
  - by rewrite (updateFirst_no_match _ _ _ _ Hno), (updateFirst_no_match _ _ _ _ Hno).
  - rewrite (updateFirst_split _ _ _ _ _ _ Hl1 Hd). simpl.
    rewrite (updateFirst_split _ _ _ _ _ _ Hl1) by done. simpl.
    by rewrite bool_decide_eq_true_2.
Qed.

(** X11: a PUT is idempotent. After a PUT that was answered 200, the same
    PUT again (its call not failing) is answered 200 with a modified count of
    zero and leaves the documents as the first PUT left them. *)
Theorem update_idempotent (w w' : Env) (id : string) (body : Decoded UpdateTodo.t)
    (c : Collection) :
  let put := updateTodo w id body c NewResponseWriter in
  let again := updateTodo w' id body put.1 NewResponseWriter in
  status put.2 = Some StatusOK →
  callErr w' = None →
  status again.2 = Some StatusOK ∧
  written again.2 = [M {[ "message" := VString "Updated successfully";
                          "resultCount" := VInt64 0 ]}] ∧
  documents again.1 = documents put.1.
Proof.
  simpl. intros Hok Hcall'.
  destruct (ObjectIDFromHex (TrimSpace id)) as [e|objID] eqn:Hid.
  { unfold updateTodo in Hok. by rewrite Hid in Hok. }
  destruct (updateTodo_ok_inv w id body c objID Hid Hok) as (Herr & Htitle & Hcall).
  unfold updateTodo, UpdateOne in *. rewrite Hid.
  rewrite Herr, Hcall, Hcall'. rewrite !bool_decide_eq_false_2 by done.
  pose proof (updateFirst_twice objID (UpdateTodo.Title (target body))
                (UpdateTodo.Completed (target body)) (documents c)) as Htwice.
  destruct (updateFirst _ _ _ (documents c)) as [ds res]. simpl in *.
  by rewrite Htwice.
Qed.

Lemma update_idempotent_witness :
  let body := mkDecoded (UpdateTodo.mk "buy bread" true) None in
  let put := updateTodo sampleEnv "00000000000000000000000a" body
               sampleCollection NewResponseWriter in
  let again := updateTodo sampleEnv "00000000000000000000000a" body put.1 NewResponseWriter in
  status again.2 = Some StatusOK ∧
  written again.2 = [M {[ "message" := VString "Updated successfully";
                          "resultCount" := VInt64 0 ]}] ∧
  documents again.1 = documents put.1.
Proof.
  apply (update_idempotent sampleEnv sampleEnv "00000000000000000000000a"
           (mkDecoded (UpdateTodo.mk "buy bread" true) None) sampleCollection);
    reflexivity.
Defined.

(** ** Addressing an item by the identifier that GET lists *)

(** With identifiers that are unique, the first document that has the
    identifier of the document at a position is that document. *)
Lemma first_match_at (ds : list Document) (i : nat) (d : Document) (id : ObjectID) :
  NoDup (doc_id <$> ds) →
  ds !! i = Some d →
  doc_id d = Some id →
  ds = take i ds ++ d :: drop (S i) ds ∧
  Forall (λ x, doc_id x ≠ Some id) (take i ds).
Proof.
  intros Hnodup Hi Hd.
  pose proof (take_drop_middle ds i d Hi) as Hsplit. split; [done|].
  rewrite <-Hsplit, fmap_app, fmap_cons, NoDup_app in Hnodup.
  destruct Hnodup as (_ & Hdisj & _).
  apply Forall_forall. intros x Hx Hxid.
  apply (Hdisj (doc_id x)); [by apply list_elem_of_fmap_2|].
  rewrite Hxid, <-Hd. apply elem_of_cons. by left.
Qed.

Lemma deleteFirst_at (ds : list Document) (i : nat) (d : Document) (id : ObjectID) :
  NoDup (doc_id <$> ds) →
  ds !! i = Some d →
  doc_id d = Some id →
  deleteFirst id ds = (delete i ds, {| DeletedCount := 1 |}).
Proof.
  intros Hnodup Hi Hd.
  destruct (first_match_at ds i d id Hnodup Hi Hd) as [Hsplit Hno].
  rewrite delete_take_drop. rewrite Hsplit at 1.
  by apply deleteFirst_split.
Qed.

Lemma updateFirst_at (ds : list Document) (i : nat) (d : Document) (id : ObjectID)
    (title : string) (completed : bool) :
  NoDup (doc_id <$> ds) →
  ds !! i = Some d →
  doc_id d = Some id →
  (updateFirst id title completed ds).1 = <[i := setFields title completed d]> ds.
Proof.
  intros Hnodup Hi Hd.
  destruct (first_match_at ds i d id Hnodup Hi Hd) as [Hsplit Hno].
  rewrite insert_take_drop by (by eapply lookup_lt_Some). rewrite Hsplit at 1.
  by rewrite (updateFirst_split _ _ _ _ _ _ Hno Hd).
Qed.

(** X12: with identifiers that are unique, a DELETE with the identifier
    under which GET lists a document is answered 200 and removes that document
    and no other; a GET that follows lists the entries that were listed before
    without that one. The order of a listing is not fixed by the code (no sort
    is asked of [Find]), so the two listings and the documents are compared up
    to permutation. (The documents carry identifiers of twelve bytes, and no
    call fails.) *)
Theorem delete_listed_id (w : Env) (c : Collection) (d : Document) (id : ObjectID) :
  callErr w = None →
  cursorErr w = None →
  NoDup (doc_id <$> documents c) →
  d ∈ documents c →
  doc_id d = Some id →
  valid_ObjectID id →
  ∃ data e data',
    listed w c = Some data ∧
    e ∈ data ∧
    Todo.ID e = Hex id ∧
    Todo.Title e = doc_title d ∧
    status (deleteTodo w (Todo.ID e) c NewResponseWriter).2 = Some StatusOK ∧
    documents c ≡ₚ d :: documents (deleteTodo w (Todo.ID e) c NewResponseWriter).1 ∧
    listed w (deleteTodo w (Todo.ID e) c NewResponseWriter).1 = Some data' ∧
    data ≡ₚ e :: data'.
Proof.
  intros Hcall Hcursor Hnodup [i Hi]%list_elem_of_lookup Hd [Hlen Hbytes].
  eexists _, _, _. split; [by apply listed_eq|].
  split; [by apply (list_elem_of_fmap_2 _ _ d), list_elem_of_lookup_2 with i|].
  simpl. rewrite Hd. simpl. split; [done|]. split; [done|].
  assert (deleteTodo w (Hex id) c NewResponseWriter =
            ({| documents := delete i (documents c); calls := calls c ++ [CallDeleteOne] |},
             JSON NewResponseWriter StatusOK (M {[
               "message" := VString "Item deleted successfully";
               "resultCont" := VInt64 1 ]}))) as ->.
  { unfold deleteTodo, DeleteOne.
    rewrite (ObjectIDFromHex_Hex id Hlen Hbytes), Hcall.
    by rewrite (deleteFirst_at _ _ _ _ Hnodup Hi Hd). }
  split; [done|]. cbn [fst documents].
  split; [by apply delete_Permutation|].
  split; [by apply listed_eq|].
  cbn [documents]. rewrite list_fmap_delete.
  apply (delete_Permutation _ i).
  by rewrite list_lookup_fmap, Hi; simpl; rewrite Hd.
Qed.

Lemma delete_listed_id_witness :
  ∃ data e data',
    listed sampleEnv sampleCollection = Some data ∧
    e ∈ data ∧
    Todo.ID e = Hex sampleID ∧
    Todo.Title e = doc_title sampleDocument ∧
    status (deleteTodo sampleEnv (Todo.ID e) sampleCollection NewResponseWriter).2
      = Some StatusOK ∧
    documents sampleCollection ≡ₚ
      sampleDocument ::
        documents (deleteTodo sampleEnv (Todo.ID e) sampleCollection NewResponseWriter).1 ∧
    listed sampleEnv (deleteTodo sampleEnv (Todo.ID e) sampleCollection NewResponseWriter).1
      = Some data' ∧
    data ≡ₚ e :: data'.
Proof.
  apply (delete_listed_id sampleEnv sampleCollection sampleDocument sampleID).
  - reflexivity.
  - reflexivity.
  - simpl. repeat constructor. intros H. inversion H.
  - simpl. apply elem_of_cons. by left.
  - reflexivity.
  - split; [reflexivity|]. unfold sampleID. repeat constructor.
Defined.

(** X13: once a DELETE with an accepted identifier has been served (its call
    not failing), a GET lists no entry whose identifier decodes to that
    identifier: the item is gone from the list. This holds for a collection
    that satisfies the store invariant and whose identifiers have twelve
    bytes. *)
Theorem deleted_item_not_listed (w w' : Env) (id : string) (c : Collection)
    (objID : ObjectID) :
  store_invariant (documents c) →
  Forall (λ d, ∀ x, doc_id d = Some x → valid_ObjectID x) (documents c) →
  ObjectIDFromHex id = inr objID →
  callErr w = None →
  callErr w' = None →
  cursorErr w' = None →
  ∃ data,
    listed w' (deleteTodo w id c NewResponseWriter).1 = Some data ∧
    ∀ e, e ∈ data → ObjectIDFromHex (Todo.ID e) ≠ inr objID.
Proof.
  intros [Hall Hnodup] Hvalid Hid Hcall Hcall' Hcursor.
  eexists. split; [by apply listed_eq|].
  assert (Forall (λ x, doc_id x ≠ Some objID)
            (documents (deleteTodo w id c NewResponseWriter).1)) as Hgone.
  { destruct (first_match objID (documents c)) as [Hno|(l1 & d & l2 & Hds & Hl1 & Hd)].
    - by destruct (deleteTodo_no_match w id c objID Hid Hcall Hno) as (_ & _ & ->).
    - destruct (deleteTodo_match w id c objID l1 d l2 Hid Hcall Hds Hl1 Hd) as (_ & _ & ->).
      apply (no_match_after_delete objID l1 d l2); [by rewrite <-Hds|done]. }
  assert (Forall (λ d, doc_title d ≠ "" ∧ is_Some (doc_id d))
            (documents (deleteTodo w id c NewResponseWriter).1) ∧
          Forall (λ d, ∀ x, doc_id d = Some x → valid_ObjectID x)
            (documents (deleteTodo w id c NewResponseWriter).1)) as [Hall' Hvalid'].
  { destruct (deleteTodo_documents w id c NewResponseWriter) as [->|(o & ->)]; [done|].
    destruct (first_match o (documents c)) as [Hno|(l1 & d & l2 & Hds & Hl1 & Hd)].
    - by rewrite (deleteFirst_no_match _ _ Hno).
    - rewrite Hds in *. rewrite (deleteFirst_split _ _ _ _ Hl1 Hd). simpl.
      revert Hall Hvalid. rewrite !Forall_app, !Forall_cons. tauto. }
  intros e (d & -> & Hd)%list_elem_of_fmap. simpl.
  rewrite Forall_forall in Hgone, Hall', Hvalid'.
  destruct (Hall' d Hd) as [_ [x Hx]]. rewrite Hx. simpl.
  destruct (Hvalid' d Hd x Hx) as [Hlen Hbytes].
  rewrite (ObjectIDFromHex_Hex x Hlen Hbytes). intros [= ->].
  by apply (Hgone d Hd).
Qed.

Lemma deleted_item_not_listed_witness :
  ∃ data,
    listed sampleEnv (deleteTodo sampleEnv "00000000000000000000000A"
                        sampleCollection NewResponseWriter).1 = Some data ∧
    ∀ e, e ∈ data → ObjectIDFromHex (Todo.ID e) ≠ inr sampleID.
Proof.
  apply (deleted_item_not_listed sampleEnv sampleEnv "00000000000000000000000A"
           sampleCollection sampleID); try reflexivity.
  - split; simpl.
    + repeat constructor; [discriminate|]. simpl. by exists sampleID.
    + repeat constructor. intros H. inversion H.
  - simpl. apply Forall_cons. split; [|apply Forall_nil_2].
    simpl. intros y [= <-].
    split; [reflexivity|]. unfold sampleID. repeat constructor.
Defined.

(** [strings.TrimSpace] leaves a hexadecimal identifier as it is. *)
Lemma list_ascii_rev_app (s1 s2 : string) :
  String.list_ascii_of_string (String.rev_app s1 s2) =
    reverse (String.list_ascii_of_string s1) ++ String.list_ascii_of_string s2.
Proof.
  revert s2. induction s1 as [|c s1 IH]; intros s2; simpl; [done|].
  rewrite IH, reverse_cons, <-app_assoc. done.
Qed.

Lemma list_ascii_rev (s : string) :
  String.list_ascii_of_string (String.rev s) = reverse (String.list_ascii_of_string s).
Proof. unfold String.rev. rewrite list_ascii_rev_app. simpl. by rewrite app_nil_r. Qed.

Lemma String_rev_involutive (s : string) : String.rev (String.rev s) = s.
Proof.
  rewrite <-(String.string_of_list_ascii_of_string (String.rev (String.rev s))).
  rewrite !list_ascii_rev, reverse_involutive.
  apply String.string_of_list_ascii_of_string.
Qed.

(** An encoding of a white space rune in more than one byte starts and ends
    with a byte that is not ASCII. *)
Lemma isSpaceBytes_multibyte (c : ascii) (cs : list ascii) (l : ascii) :
  isSpaceBytes (c :: cs) = true →
  last (c :: cs) = Some l →
  cs ≠ [] →
  128 ≤ N_of_ascii c ∧ 128 ≤ N_of_ascii l.
Proof.
  unfold isSpaceBytes. intros Hin%bool_decide_eq_true Hlast Hcs.
  assert (Forall (λ e, match e with
                       | [] | [_] => True
                       | x :: _ => 128 ≤ N_of_ascii x ∧
                                   ∀ y, last e = Some y → 128 ≤ N_of_ascii y
                       end) spaceEncodings) as Hall.
  { unfold spaceEncodings.
    repeat (apply Forall_cons; split;
            [first [exact I | split; [by vm_compute | intros y [= <-]; by vm_compute]]|]).
    apply Forall_nil_2. }
  rewrite Forall_forall in Hall. specialize (Hall _ Hin).
  destruct cs as [|c2 cs]; [done|]. destruct Hall as [Hc Hl]. auto.
Qed.

Lemma trimLeading_ascii (rv : bool) (c : ascii) (s : string) :
  N_of_ascii c < 128 →
  isSpaceBytes [c] = false →
  trimLeading rv (String c s) = String c s.
Proof.
  intros Hc Hsp. cbn [trimLeading].
  replace (if rv then reverse [c] else [c]) with [c] by (by destruct rv).
  rewrite Hsp. destruct s as [|c2 s]; [done|].
  destruct (isSpaceBytes (if rv then reverse [c; c2] else [c; c2])) eqn:H2.
  { destruct rv.
    - destruct (isSpaceBytes_multibyte c2 [c] c H2); [done..|]. lia.
    - destruct (isSpaceBytes_multibyte c [c2] c2 H2); [done..|]. lia. }
  destruct s as [|c3 s]; [done|].
  destruct (isSpaceBytes (if rv then reverse [c; c2; c3] else [c; c2; c3])) eqn:H3; [|done].
  destruct rv.
  - destruct (isSpaceBytes_multibyte c3 [c2; c] c H3); [done..|]. lia.
  - destruct (isSpaceBytes_multibyte c [c2; c3] c3 H3); [done..|]. lia.
Qed.

Lemma TrimSpace_ascii (s : string) :
  Forall (λ c, N_of_ascii c < 128 ∧ isSpaceBytes [c] = false)
    (String.list_ascii_of_string s) →
  TrimSpace s = s.
Proof.
  intros Hall. unfold TrimSpace.
  destruct s as [|c s]; [done|].
  rewrite trimLeading_ascii by (by apply Forall_cons_1 in Hall as [[? ?] _]).
  apply Forall_reverse in Hall. rewrite <-list_ascii_rev in Hall.
  destruct (String.rev (String c s)) as [|c' s'] eqn:Hrev.
  { apply (f_equal String.rev) in Hrev. by rewrite String_rev_involutive in Hrev. }
  rewrite trimLeading_ascii by (by apply Forall_cons_1 in Hall as [[? ?] _]).
  rewrite <-Hrev. apply String_rev_involutive.
Qed.

Lemma hexChar_ascii (n : N) :
  N_of_ascii (hexChar n) < 128 ∧ isSpaceBytes [hexChar n] = false.
Proof.
  unfold hexChar. destruct (N.to_nat n) as [|m]; [by vm_compute|].
  do 16 (destruct m as [|m]; [by vm_compute|]). by vm_compute.
Qed.

Lemma TrimSpace_Hex (id : ObjectID) : TrimSpace (Hex id) = Hex id.
Proof.
  apply TrimSpace_ascii. unfold Hex.
  induction id as [|v id IH]; simpl; [done|].
  repeat (apply Forall_cons; split; [apply hexChar_ascii|]). done.
Qed.

(** X14: with identifiers that are unique, a PUT with the identifier under
    which GET lists a document (a body that decodes, a title that is not
    empty, no call failing) is answered 200 and rewrites the title and the
    completed flag of that document and of no other; a GET that follows lists
    the same entries as before, but for the entry of that document, which has
    the same identifier and creation time and the new title and flag. The
    listings and the documents are compared up to permutation, as no order is
    asked of [Find]. *)
Theorem update_listed_id (w : Env) (c : Collection) (d : Document) (id : ObjectID)
    (body : Decoded UpdateTodo.t) :
  callErr w = None →
  cursorErr w = None →
  err body = None →
  UpdateTodo.Title (target body) ≠ "" →
  NoDup (doc_id <$> documents c) →
  d ∈ documents c →
  doc_id d = Some id →
  valid_ObjectID id →
  ∃ data e rest ds data',
    listed w c = Some data ∧
    data ≡ₚ e :: rest ∧
    Todo.ID e = Hex id ∧
    Todo.Title e = doc_title d ∧
    status (updateTodo w (Todo.ID e) body c NewResponseWriter).2 = Some StatusOK ∧
    documents c ≡ₚ d :: ds ∧
    documents (updateTodo w (Todo.ID e) body c NewResponseWriter).1 ≡ₚ
      setFields (UpdateTodo.Title (target body)) (UpdateTodo.Completed (target body)) d :: ds ∧
    listed w (updateTodo w (Todo.ID e) body c NewResponseWriter).1 = Some data' ∧
    data' ≡ₚ {| Todo.ID := Todo.ID e;
                Todo.Title := UpdateTodo.Title (target body);
                Todo.Completed := UpdateTodo.Completed (target body);
                Todo.CreatedAt := Todo.CreatedAt e |} :: rest.
Proof.
  intros Hcall Hcursor Herr Htitle Hnodup [i Hi]%list_elem_of_lookup Hd [Hlen Hbytes].
  pose proof (lookup_lt_Some _ _ _ Hi) as Hlt.
  eexists _, _, _, (delete i (documents c)), _. split; [by apply listed_eq|].
  split.
  { apply (delete_Permutation _ i). by rewrite list_lookup_fmap, Hi. }
  simpl. rewrite Hd. simpl. split; [done|]. split; [done|].
  pose proof (updateFirst_at _ _ _ _ (UpdateTodo.Title (target body))
                (UpdateTodo.Completed (target body)) Hnodup Hi Hd) as Hat.
  unfold updateTodo, UpdateOne.
  rewrite TrimSpace_Hex, (ObjectIDFromHex_Hex id Hlen Hbytes), Herr, Hcall.
  rewrite bool_decide_eq_false_2 by done.
  destruct (updateFirst _ _ _ _) as [ds res]. simpl in *. subst ds.
  split; [done|].
  split; [by apply delete_Permutation|].
  split.
  { rewrite insert_take_drop, delete_take_drop by done. by rewrite Permutation_middle. }
  rewrite listed_eq by done. split; [done|]. cbn [documents].
  rewrite list_fmap_insert.
  rewrite insert_take_drop, delete_take_drop by (by rewrite length_fmap).
  simpl. rewrite Hd. simpl. by rewrite Permutation_middle.
Qed.

Lemma update_listed_id_witness :
  let body := mkDecoded (UpdateTodo.mk "buy bread" true) None in
  ∃ data e rest ds data',
    listed sampleEnv sampleCollection = Some data ∧
    data ≡ₚ e :: rest ∧
    Todo.ID e = Hex sampleID ∧
    Todo.Title e = doc_title sampleDocument ∧
    status (updateTodo sampleEnv (Todo.ID e) body sampleCollection NewResponseWriter).2
      = Some StatusOK ∧
    documents sampleCollection ≡ₚ sampleDocument :: ds ∧
    documents (updateTodo sampleEnv (Todo.ID e) body sampleCollection NewResponseWriter).1 ≡ₚ
      setFields "buy bread" true sampleDocument :: ds ∧
    listed sampleEnv (updateTodo sampleEnv (Todo.ID e) body sampleCollection
                        NewResponseWriter).1 = Some data' ∧
    data' ≡ₚ {| Todo.ID := Todo.ID e;
                Todo.Title := "buy bread";
                Todo.Completed := true;
                Todo.CreatedAt := Todo.CreatedAt e |} :: rest.
Proof.
  apply (update_listed_id sampleEnv sampleCollection sampleDocument sampleID
           (mkDecoded (UpdateTodo.mk "buy bread" true) None)); try reflexivity.
  - simpl. discriminate.
  - simpl. repeat constructor. intros H. inversion H.
  - simpl. apply elem_of_cons. by left.
  - split; [reflexivity|]. unfold sampleID. repeat constructor.
Defined.

(** ** Creating, then listing *)

(** X15: after a POST that persists an item (a body that decodes, a title
    that is not empty, an identifier that is not the zero one, no call
    failing), a GET lists what it listed before and one new entry: the title
    of the request, not completed, under the identifier that [createTodo]
    generated. The two listings are compared up to permutation, as no order is
    asked of [Find]. *)
Theorem create_appends_to_list (w w' : Env) (body : Decoded CreateTodo.t) (c : Collection) :
  err body = None →
  CreateTodo.Title (target body) ≠ "" →
  callErr w = None →
  IsZero (NewObjectID w) = false →
  callErr w' = None →
  cursorErr w' = None →
  ∃ data e data',
    listed w' c = Some data ∧
    listed w' (createTodo w body c NewResponseWriter).1 = Some data' ∧
    data' ≡ₚ e :: data ∧
    Todo.ID e = Hex (NewObjectID w) ∧
    Todo.Title e = CreateTodo.Title (target body) ∧
    Todo.Completed e = false.
Proof.
  intros Herr Htitle Hcall Hzero Hcall' Hcursor.
  eexists _, _, _. split; [by apply listed_eq|].
  rewrite (createTodo_created _ _ _ _ Herr Htitle Hcall), listed_eq by done.
  split; [done|].
  cbn [fst documents]. rewrite fmap_app. simpl.
  rewrite Hzero. simpl.
  split; [apply (Permutation_app_comm _ [_])|done].
Qed.

Lemma create_appends_to_list_witness :
  ∃ data e data',
    listed sampleEnv sampleCollection = Some data ∧
    listed sampleEnv (createTodo sampleEnv (mkDecoded (CreateTodo.mk "buy bread") None)
                        sampleCollection NewResponseWriter).1 = Some data' ∧
    data' ≡ₚ e :: data ∧
    Todo.ID e = Hex otherID ∧
    Todo.Title e = "buy bread" ∧
    Todo.Completed e = false.
Proof.
  apply (create_appends_to_list sampleEnv sampleEnv
           (mkDecoded (CreateTodo.mk "buy bread") None) sampleCollection);
    try reflexivity.
  simpl. discriminate.
Defined.

(** X16: a PUT whose title is the empty string is answered 400 and touches
    nothing, whatever its identifier and whether or not its body decoded: no
    call is made on the collection and the documents are as before. *)
Theorem update_empty_title (w : Env) (id : string) (body : Decoded UpdateTodo.t)
    (c : Collection) :
  UpdateTodo.Title (target body) = "" →
  (updateTodo w id body c NewResponseWriter).1 = c ∧
  status (updateTodo w id body c NewResponseWriter).2 = Some StatusBadRequest ∧
  all_have "message" (updateTodo w id body c NewResponseWriter).2.
Proof.
  intros Htitle. unfold all_have, updateTodo. rewrite Htitle.
  destruct (ObjectIDFromHex _); [by repeat constructor|].
  destruct (err body); by repeat constructor.
Qed.

Lemma update_empty_title_witness :
  let body := mkDecoded (UpdateTodo.mk "" true) None in
  (updateTodo sampleEnv "00000000000000000000000a" body sampleCollection
     NewResponseWriter).1 = sampleCollection ∧
  status (updateTodo sampleEnv "00000000000000000000000a" body sampleCollection
            NewResponseWriter).2 = Some StatusBadRequest ∧
  all_have "message" (updateTodo sampleEnv "00000000000000000000000a" body
                        sampleCollection NewResponseWriter).2.
Proof.
  apply (update_empty_title sampleEnv "00000000000000000000000a"
           (mkDecoded (UpdateTodo.mk "" true) None) sampleCollection).
  reflexivity.
Defined.

(** X17: for a collection that satisfies the store invariant and whose
    identifiers have twelve bytes, the entries that a GET lists have
    identifiers that differ from one another and titles that are not
    empty. *)
Theorem listed_ids_distinct (w : Env) (c : Collection) :
  store_invariant (documents c) →
  Forall (λ d, ∀ x, doc_id d = Some x → valid_ObjectID x) (documents c) →
  callErr w = None →
  cursorErr w = None →
  ∃ data,
    listed w c = Some data ∧
    NoDup (Todo.ID <$> data) ∧
    Forall (λ e, Todo.Title e ≠ "") data.
Proof.
  intros [Hall Hnodup] Hvalid Hcall Hcursor.
  eexists. split; [by apply listed_eq|].
  rewrite Forall_forall in Hall, Hvalid. split.
  - rewrite <-list_fmap_compose.
    rewrite (list_fmap_compose doc_id (λ o, Hex (default NilObjectID o))).
    apply NoDup_fmap_2_strong; [|done].
    intros o1 o2 (d1 & -> & Hd1)%list_elem_of_fmap (d2 & -> & Hd2)%list_elem_of_fmap.
    destruct (Hall d1 Hd1) as [_ [x1 Hx1]]. destruct (Hall d2 Hd2) as [_ [x2 Hx2]].
    rewrite Hx1, Hx2. simpl. intros Heq.
    destruct (Hvalid d1 Hd1 x1 Hx1) as [Hlen1 Hbytes1].
    destruct (Hvalid d2 Hd2 x2 Hx2) as [Hlen2 Hbytes2].
    pose proof (ObjectIDFromHex_Hex x1 Hlen1 Hbytes1) as H1.
    rewrite Heq, (ObjectIDFromHex_Hex x2 Hlen2 Hbytes2) in H1.
    by injection H1 as ->.
  - apply Forall_fmap, Forall_forall. intros d Hd. simpl. by apply (Hall d Hd).
Qed.

Lemma listed_ids_distinct_witness :
  ∃ data,
    listed sampleEnv sampleCollection = Some data ∧
    NoDup (Todo.ID <$> data) ∧
    Forall (λ e, Todo.Title e ≠ "") data.
Proof.
  apply (listed_ids_distinct sampleEnv sampleCollection); try reflexivity.
  - split; simpl.
    + repeat constructor; [discriminate|]. simpl. by exists sampleID.
    + repeat constructor. intros H. inversion H.
  - simpl. apply Forall_cons. split; [|apply Forall_nil_2].
    simpl. intros y [= <-].
    split; [reflexivity|]. unfold sampleID. repeat constructor.
Defined.
